(** * Flight Manager relay server: a shallow embedding

    The repository holds two versions of the WebSocket relay broker:

    - the reconnection-aware server (the JavaScript document that follows
      the batch script in [src/server/START-RELAY.bat]), which keeps a
      token index and schedules a one-hour cleanup when a PC disconnects;
    - the first server ([src/unnamed/part_001]), which has neither tokens
      nor timers and deletes a room as soon as its PC disconnects.

    Both share [generateRoomCode] and the [join_room] and [relay] branches
    of the message handler word for word.  The embedding below follows the
    code branch by branch; the two servers are told apart by a [server]
    tag that selects the [register_pc] branch and the [close] handler.

    The PC-side client of the broker ([RelayClient],
    [src/unnamed/part_000]) is embedded in a module of its own, so that
    the two ends can be run against each other. *)

From Stdlib Require Import ZArith QArith Qround Qabs String Ascii List Lia.
From stdpp Require Import gmap strings list fin_maps.

Local Close Scope Q_scope.
Local Open Scope string_scope.
Local Open Scope list_scope.

(** ** JSON values, as [JSON.parse] returns them *)

#[local] Set Warnings "-register-all".

(** A number of a parsed frame is a double: a finite one, given by its
    exact value (the two zeros are not told apart: both are falsy and
    [JSON.stringify] writes [0] for both), or an infinity, which
    [JSON.parse] returns for a literal beyond the range of a double. *)
Inductive number : Type :=
| Finite (q : Q)
| Infinity (negative : bool).

Inductive json : Type :=
| JNull
| JBool (b : bool)
| JNum (n : number)
| JStr (s : string)
| JArr (items : list json)
| JObj (fields : list (string * json)).

(** Own-property lookup of an object produced by [JSON.parse], which keeps
    one value for each key; reading a property of a boolean, number, string
    or array that the handlers ask for ([type], [roomCode], ...) yields
    [undefined]. *)
Fixpoint assoc (k : string) (fields : list (string * json)) : option json :=
  match fields with
  | [] => None
  | (k', v) :: rest => if String.eqb k k' then Some v else assoc k rest
  end.

Definition get (data : json) (k : string) : option json :=
  match data with
  | JObj fields => assoc k fields
  | _ => None
  end.

(** JavaScript truthiness of a property value ([None] is [undefined]). *)
Definition truthy (v : option json) : bool :=
  match v with
  | None => false
  | Some JNull => false
  | Some (JBool b) => b
  | Some (JNum (Finite q)) => negb (Qeq_bool q 0)
  | Some (JNum (Infinity _)) => true
  | Some (JStr s) => negb (String.eqb s "")
  | Some (JArr _) => true
  | Some (JObj _) => true
  end.

(** [data.type === t] *)
Definition type_is (data : json) (t : string) : bool :=
  match get data "type" with
  | Some (JStr s) => String.eqb s t
  | _ => false
  end.

(** [2^e] as a rational. *)
Definition pow2 (e : Z) : Q :=
  if (0 <=? e)%Z then inject_Z (2 ^ e) else (1 / inject_Z (2 ^ (- e)))%Q.

(** The integer nearest to a rational that is not negative, the even one
    of the two when it lies half way. *)
Definition round_half_even (x : Q) : Z :=
  let f := Qfloor x in
  match ((x - inject_Z f) * 2 ?= 1)%Q with
  | Lt => f
  | Gt => (f + 1)%Z
  | Eq => if Z.even f then f else (f + 1)%Z
  end.

(** [floor(log2 a)] for a positive rational. *)
Definition floor_log2 (a : Q) : Z :=
  let t := (Z.log2 (Qnum a) - Z.log2 (Z.pos (Qden a)))%Z in
  if Qle_bool (pow2 t) a then t else (t - 1)%Z.

(** The number that [JSON.parse] returns for a numeric literal of exact
    value [q]: the nearest double (53 bits of precision, exponents from
    -1074, ties to even), or an infinity when that would be [2^1024] or
    more. *)
Definition JSON_parse_number (q : Q) : number :=
  let a := Qabs q in
  if Qeq_bool a 0 then Finite 0
  else
    let e := Z.max (floor_log2 a - 52) (-1074) in
    let v := (inject_Z (round_half_even (a / pow2 e)) * pow2 e)%Q in
    if Qle_bool (pow2 1024) v then Infinity (negb (Qle_bool 0 q))
    else Finite (Qred (if Qle_bool 0 q then v else - v)).

(** No number of the value is an infinity. *)
Fixpoint finite (v : json) : bool :=
  match v with
  | JNum (Infinity _) => false
  | JArr items => forallb finite items
  | JObj fields => forallb (fun kv => finite kv.2) fields
  | _ => true
  end.

(** [JSON.parse(JSON.stringify(v))], the value that the peer reads from
    what [s.send(JSON.stringify(v))] puts on the wire.  [JSON.stringify]
    writes [null] for an infinity, and for a finite double the shortest
    decimal that reads back as the same double. *)
Fixpoint serialised (v : json) : json :=
  match v with
  | JNum (Infinity _) => JNull
  | JArr items => JArr (map serialised items)
  | JObj fields => JObj (map (fun kv => (kv.1, serialised kv.2)) fields)
  | _ => v
  end.

(** ** Code generator *)

Definition chars : string := "ABCDEFGHJKLMNPQRSTUVWXYZ23456789".

(** [s.charAt(i)]: the one-character string at index [i], or the empty
    string when [i] is out of range. *)
Definition charAt (s : string) (i : Z) : string :=
  if (i <? 0)%Z then ""
  else match String.get (Z.to_nat i) s with
       | Some c => String c ""
       | None => ""
       end.

(** [Math.floor(r * chars.length)] for the value [r] of one call of
    [Math.random()].  Scaling a double by 32 is exact, so the rational
    computation agrees with the floating-point one. *)
Definition random_index (r : Q) : Z :=
  Qfloor (r * inject_Z (Z.of_nat (String.length chars)))%Q.

(** The loop [for (let i = 0; i < 6; i++) code += chars.charAt(...)];
    [random i] is the result of the [i]-th call of [Math.random()]. *)
Fixpoint generateRoomCode_loop (random : nat -> Q) (i n : nat) (code : string)
  : string :=
  match n with
  | O => code
  | S n' =>
      generateRoomCode_loop random (S i) n'
        (code +:+ charAt chars (random_index (random i)))
  end.

Definition generateRoomCode (random : nat -> Q) : string :=
  generateRoomCode_loop random 0 6 "".

(** The contract of [Math.random()]: a value in the interval [0, 1). *)
Definition unit_interval (r : Q) : bool :=
  Qle_bool 0 r && negb (Qle_bool 1 r).

Definition in_chars (c : ascii) : Prop := In c (list_ascii_of_string chars).


(** [n.toString(36)] for an integer [n]. *)
Definition digits36 : string := "0123456789abcdefghijklmnopqrstuvwxyz".

Fixpoint toString36_loop (fuel : nat) (n : Z) (acc : string) : string :=
  match fuel with
  | O => acc
  | S fuel' =>
      let acc' := charAt digits36 (n mod 36) +:+ acc in
      if (n / 36 =? 0)%Z then acc' else toString36_loop fuel' (n / 36)%Z acc'
  end.

Definition toString36 (n : Z) : string :=
  if (n <? 0)%Z
  then "-" +:+ toString36_loop (S (Z.to_nat (Z.log2 (- n)))) (- n) ""
  else toString36_loop (S (Z.to_nat (Z.log2 n))) n "".

(** What the environment supplies to one run of the message handler:
    [random i] is the result of the [i]-th call of [Math.random()] made by
    [generateRoomCode], and [random_tail] is the value of
    [Math.random().toString(36).substring(2)] in
    [generateReconnectionToken] (the base-36 digits of a double are left
    to the JavaScript engine). *)
Record oracle : Type := Oracle {
  random : nat -> Q;
  random_tail : string
}.

Definition oracle_ok (o : oracle) : bool :=
  forallb (fun i => unit_interval (random o i)) (seq 0 6).

(** [Math.random().toString(36).substring(2) + Date.now().toString(36)] *)
Definition generateReconnectionToken (o : oracle) (now : Z) : string :=
  random_tail o +:+ toString36 now.


(** [s.toUpperCase()] for a string of ASCII characters ([is_ascii]), on
    which the JavaScript function maps [a]..[z] to [A]..[Z] and nothing
    else; room codes and their case variants lie in that range.  The
    JavaScript function also maps characters outside ASCII, some of them
    to ASCII letters (U+017F to [S]); the model does not cover such
    strings, and what is stated of a supplied code is stated of ASCII
    strings. *)
Definition upper_ascii (c : ascii) : ascii :=
  let n := nat_of_ascii c in
  if ((97 <=? n) && (n <=? 122))%nat then ascii_of_nat (n - 32) else c.

Fixpoint toUpperCase (s : string) : string :=
  match s with
  | EmptyString => EmptyString
  | String c rest => String (upper_ascii c) (toUpperCase rest)
  end.

(** ** The broker's state *)

(** A WebSocket object is identified by a number. *)
Definition socket : Type := nat.

(** [ws.readyState]; a server-side socket is never [CONNECTING]. *)
Inductive ready_state : Type := OPEN | CLOSING | CLOSED.

(** [deviceType]: ['pc'] or ['mobile']. *)
Inductive device : Type := Pc | Mobile.

(** A room object.  The first server stores [{ pc, mobile }] only, so the
    remaining properties are optional. *)
Record room : Type := Room {
  pc : option socket;
  mobile : option socket;
  reconnectionToken : option string;
  createdAt : option Z;
  cleanupTimeout : option nat
}.

(** The variables [currentRoom] and [deviceType] captured by the handlers
    of one connection. *)
Record session : Type := Session {
  currentRoom : option string;
  deviceType : option device
}.

(** A pending [setTimeout(cleanup, 3600000)]: the time at which it is due
    and the connection whose [currentRoom] the callback reads. *)
Record timer : Type := Timer {
  due : Z;
  owner : socket
}.

Record world : Type := World {
  rooms : gmap string room;
  reconnectionTokens : gmap string string;
  sessions : gmap socket session;
  readyState : gmap socket ready_state;
  timers : gmap nat timer;
  next_timer : nat;
  clock : Z
}.

Definition init : world :=
  World ∅ ∅ ∅ ∅ ∅ 0 0.

Definition with_rooms (f : gmap string room -> gmap string room) (st : world)
  : world :=
  World (f (rooms st)) (reconnectionTokens st) (sessions st) (readyState st)
        (timers st) (next_timer st) (clock st).

Definition with_tokens (f : gmap string string -> gmap string string)
  (st : world) : world :=
  World (rooms st) (f (reconnectionTokens st)) (sessions st) (readyState st)
        (timers st) (next_timer st) (clock st).

Definition with_sessions (f : gmap socket session -> gmap socket session)
  (st : world) : world :=
  World (rooms st) (reconnectionTokens st) (f (sessions st)) (readyState st)
        (timers st) (next_timer st) (clock st).

Definition with_readyState
  (f : gmap socket ready_state -> gmap socket ready_state) (st : world)
  : world :=
  World (rooms st) (reconnectionTokens st) (sessions st) (f (readyState st))
        (timers st) (next_timer st) (clock st).

Definition with_timers (f : gmap nat timer -> gmap nat timer) (st : world)
  : world :=
  World (rooms st) (reconnectionTokens st) (sessions st) (readyState st)
        (f (timers st)) (next_timer st) (clock st).

Definition set_pc (p : option socket) (r : room) : room :=
  Room p (mobile r) (reconnectionToken r) (createdAt r) (cleanupTimeout r).

Definition set_mobile (m : option socket) (r : room) : room :=
  Room (pc r) m (reconnectionToken r) (createdAt r) (cleanupTimeout r).

Definition set_cleanupTimeout (t : option nat) (r : room) : room :=
  Room (pc r) (mobile r) (reconnectionToken r) (createdAt r) t.

(** What a handler does to the outside: [s.send(JSON.stringify(msg))],
    from which the peer reads [serialised msg], and [s.close()]. *)
Inductive effect : Type :=
| Send (to : socket) (msg : json)
| Close (s : socket).

Definition session_of (st : world) (ws : socket) : session :=
  default (Session None None) (sessions st !! ws).

(** [currentRoom = roomCode; deviceType = d] *)
Definition bind_session (ws : socket) (roomCode : string) (d : device)
  (st : world) : world :=
  with_sessions <[ws := Session (Some roomCode) (Some d)]> st.

(** [s.readyState === WebSocket.OPEN] *)
Definition is_open (st : world) (s : socket) : bool :=
  match readyState st !! s with
  | Some OPEN => true
  | _ => false
  end.

(** [if (slot && slot.readyState === WebSocket.OPEN) slot.close()]: the
    socket leaves the [OPEN] state at once; its [close] event comes later. *)
Definition close_if_open (slot : option socket) (st : world)
  : world * list effect :=
  match slot with
  | Some old =>
      if is_open st old
      then (with_readyState <[old := CLOSING]> st, [Close old])
      else (st, [])
  | None => (st, [])
  end.

(** [if (slot && slot.readyState === WebSocket.OPEN) slot.send(msg)] *)
Definition send_if_open (slot : option socket) (msg : json) (st : world)
  : list effect :=
  match slot with
  | Some s => if is_open st s then [Send s msg] else []
  | None => []
  end.

(** [currentRoom && rooms.has(currentRoom)], then [rooms.get(currentRoom)] *)
Definition live_room (st : world) (cur : option string) : option room :=
  match cur with
  | Some k => if String.eqb k "" then None else rooms st !! k
  | None => None
  end.

(** ** Outbound messages, before [JSON.stringify] *)

Definition msg_error (m : string) : json :=
  JObj [("type", JStr "error"); ("message", JStr m)].

Definition msg_registered_legacy (roomCode : string) : json :=
  JObj [("type", JStr "registered"); ("roomCode", JStr roomCode);
        ("message", JStr ("PC registered with code: " +:+ roomCode))].

Definition msg_registered (roomCode token : string) (isReconnection : bool)
  : json :=
  JObj [("type", JStr "registered"); ("roomCode", JStr roomCode);
        ("reconnectionToken", JStr token);
        ("isReconnection", JBool isReconnection);
        ("message", JStr ("PC registered with code: " +:+ roomCode))].

Definition msg_connected : json :=
  JObj [("type", JStr "connected");
        ("message", JStr "Connected to PC successfully")].

Definition msg_mobile_connected : json :=
  JObj [("type", JStr "mobile_connected");
        ("message", JStr "Mobile device connected")].

Definition msg_mobile_disconnected : json :=
  JObj [("type", JStr "mobile_disconnected");
        ("message", JStr "Mobile disconnected")].

Definition msg_pc_disconnected : json :=
  JObj [("type", JStr "pc_disconnected");
        ("message", JStr "PC disconnected")].

(** [{ type: 'data', payload: data.payload }]; [JSON.stringify] leaves out
    a property whose value is [undefined]. *)
Definition msg_data (payload : option json) : json :=
  JObj (("type", JStr "data") ::
        match payload with
        | Some p => [("payload", p)]
        | None => []
        end).

(** ** The message handler, branch by branch *)

(** The two versions of the broker. *)
Inductive server : Type := Legacy | Reconnecting.

(** [register_pc] of the first server: always a new room. *)
Definition register_pc_legacy (o : oracle) (ws : socket) (st : world)
  : world * list effect :=
  let roomCode := generateRoomCode (random o) in
  let st1 := bind_session ws roomCode Pc st in
  let st2 := with_rooms <[roomCode := Room (Some ws) None None None None]> st1 in
  (st2, [Send ws (msg_registered_legacy roomCode)]).

(** The reconnection test of the second server:
    [data.reconnectionToken && data.requestedRoomCode], then
    [storedRoomCode === data.requestedRoomCode && rooms.has(storedRoomCode)].
    A [Map] compares keys without coercion, so only a string can hit an
    entry of [reconnectionTokens]; [===] succeeds only between equal
    strings.  The result is the reclaimed code, the token and the room. *)
Definition reclaim_target (data : json) (st : world)
  : option (string * string * room) :=
  if truthy (get data "reconnectionToken")
     && truthy (get data "requestedRoomCode")
  then
    match get data "reconnectionToken", get data "requestedRoomCode" with
    | Some (JStr token), Some (JStr requested) =>
        match reconnectionTokens st !! token with
        | Some storedRoomCode =>
            if String.eqb storedRoomCode requested
            then match rooms st !! storedRoomCode with
                 | Some existingRoom =>
                     Some (storedRoomCode, token, existingRoom)
                 | None => None
                 end
            else None
        | None => None
        end
    | _, _ => None
    end
  else None.

(** [clearTimeout(existingRoom.cleanupTimeout)] *)
Definition clearTimeout (t : option nat) (st : world) : world :=
  match t with
  | Some id => with_timers (delete id) st
  | None => st
  end.

(** [register_pc] of the second server.  In the reclaiming branch
    [roomCode] equals the truthy [data.requestedRoomCode], so the later
    test [if (!roomCode)] fails and no new room is made. *)
Definition register_pc (o : oracle) (ws : socket) (data : json) (st : world)
  : world * list effect :=
  match reclaim_target data st with
  | Some (roomCode, token, existingRoom) =>
      let st1 := clearTimeout (cleanupTimeout existingRoom) st in
      let '(st2, closed) := close_if_open (pc existingRoom) st1 in
      let room1 := set_pc (Some ws) (set_cleanupTimeout None existingRoom) in
      let st3 := with_rooms <[roomCode := room1]> st2 in
      let st4 := bind_session ws roomCode Pc st3 in
      (st4, closed ++ [Send ws (msg_registered roomCode token true)])
  | None =>
      let roomCode := generateRoomCode (random o) in
      let token := generateReconnectionToken o (clock st) in
      let st1 :=
        with_rooms
          <[roomCode := Room (Some ws) None (Some token) (Some (clock st)) None]>
          st in
      let st2 := with_tokens <[token := roomCode]> st1 in
      let st3 := bind_session ws roomCode Pc st2 in
      (st3, [Send ws (msg_registered roomCode token false)])
  end.

(** [join_room], the same in both servers.  [None] stands for the
    [TypeError] of [data.roomCode.toUpperCase()] when [roomCode] is not a
    string; it is raised before anything is changed. *)
Definition join_room (ws : socket) (data : json) (st : world)
  : option (world * list effect) :=
  match get data "roomCode" with
  | Some (JStr supplied) =>
      let roomCode := toUpperCase supplied in
      match rooms st !! roomCode with
      | None => Some (st, [Send ws (msg_error "Invalid room code")])
      | Some room0 =>
          let '(st1, closed) := close_if_open (mobile room0) st in
          let room1 := set_mobile (Some ws) room0 in
          let st2 := with_rooms <[roomCode := room1]> st1 in
          let st3 := bind_session ws roomCode Mobile st2 in
          Some (st3,
                closed ++ [Send ws msg_connected]
                  ++ send_if_open (pc room1) msg_mobile_connected st3)
      end
  | _ => None
  end.

(** [relay], the same in both servers. *)
Definition relay (ws : socket) (data : json) (st : world)
  : world * list effect :=
  let s := session_of st ws in
  match live_room st (currentRoom s) with
  | None => (st, [Send ws (msg_error "Not in a room")])
  | Some room0 =>
      match deviceType s with
      | Some Pc =>
          (st, send_if_open (mobile room0) (msg_data (get data "payload")) st)
      | Some Mobile =>
          (st, send_if_open (pc room0) (msg_data (get data "payload")) st)
      | None => (st, [])
      end
  end.

(** The [catch] block of the message handler. *)
Definition protocol_error (ws : socket) (st : world) : world * list effect :=
  (st, [Send ws (msg_error "Invalid message format")]).

(** [ws.on('message', ...)].  [message] is the result of [JSON.parse]:
    [None] when it throws.  Reading [data.type] of [null] throws as well. *)
Definition on_message (v : server) (o : oracle) (ws : socket)
  (message : option json) (st : world) : world * list effect :=
  match message with
  | None => protocol_error ws st
  | Some JNull => protocol_error ws st
  | Some data =>
      if type_is data "register_pc" then
        match v with
        | Legacy => register_pc_legacy o ws st
        | Reconnecting => register_pc o ws data st
        end
      else if type_is data "join_room" then
        match join_room ws data st with
        | Some result => result
        | None => protocol_error ws st
        end
      else if type_is data "relay" then relay ws data st
      else (st, [])
  end.

(** ** The close handler and the cleanup callback *)

Definition grace_period : Z := 3600000.

(** [ws.on('close', ...)] *)
Definition on_close (v : server) (ws : socket) (st : world)
  : world * list effect :=
  let s := session_of st ws in
  match currentRoom s, live_room st (currentRoom s) with
  | Some k, Some room0 =>
      match deviceType s with
      | Some Pc =>
          let notice := send_if_open (mobile room0) msg_pc_disconnected st in
          match v with
          | Legacy => (with_rooms (delete k) st, notice)
          | Reconnecting =>
              let id := next_timer st in
              let st1 :=
                World (rooms st) (reconnectionTokens st) (sessions st)
                      (readyState st)
                      (<[id := Timer (clock st + grace_period) ws]> (timers st))
                      (S id) (clock st) in
              (with_rooms <[k := set_cleanupTimeout (Some id) room0]> st1,
               notice)
          end
      | Some Mobile =>
          let room1 := set_mobile None room0 in
          let st1 := with_rooms <[k := room1]> st in
          (st1, send_if_open (pc room1) msg_mobile_disconnected st1)
      | None => (st, [])
      end
  | _, _ => (st, [])
  end.

(** The callback given to [setTimeout]; it reads the [currentRoom] of the
    connection that scheduled it. *)
Definition cleanup (ws : socket) (st : world) : world :=
  match currentRoom (session_of st ws) with
  | Some k =>
      match rooms st !! k with
      | Some room0 =>
          let st1 :=
            match reconnectionToken room0 with
            | Some token =>
                if String.eqb token "" then st
                else with_tokens (delete token) st
            | None => st
            end in
          with_rooms (delete k) st1
      | None => st
      end
  | None => st
  end.

(** ** The event loop *)

Inductive event : Type :=
| Connection (ws : socket)
| Message (ws : socket) (o : oracle) (message : option json)
| CloseEvent (ws : socket)
| TimerFired (id : nat)
| Elapse (ms : Z).

Definition step (v : server) (ev : event) (st : world) : world * list effect :=
  match ev with
  | Connection ws =>
      (with_readyState <[ws := OPEN]>
         (with_sessions <[ws := Session None None]> st), [])
  | Message ws o message => on_message v o ws message st
  | CloseEvent ws => on_close v ws (with_readyState <[ws := CLOSED]> st)
  | TimerFired id =>
      match timers st !! id with
      | Some t => (cleanup (owner t) (with_timers (delete id) st), [])
      | None => (st, [])
      end
  | Elapse ms =>
      (World (rooms st) (reconnectionTokens st) (sessions st) (readyState st)
             (timers st) (next_timer st) (clock st + ms), [])
  end.

(** When the runtime can deliver an event: a connection is new; a message
    or a close event comes from a connection whose close event has not yet
    fired; a timer fires no earlier than it is due; time does not run
    backwards. *)
Definition enabled (st : world) (ev : event) : bool :=
  match ev with
  | Connection ws =>
      match sessions st !! ws with
      | None => true
      | Some _ => false
      end
  | Message ws o _ =>
      oracle_ok o
      && match readyState st !! ws with
         | Some OPEN | Some CLOSING => true
         | _ => false
         end
  | CloseEvent ws =>
      match readyState st !! ws with
      | Some OPEN | Some CLOSING => true
      | _ => false
      end
  | TimerFired id =>
      match timers st !! id with
      | Some t => (due t <=? clock st)%Z
      | None => false
      end
  | Elapse ms => (0 <=? ms)%Z
  end.

(** Running a list of events from a state, with the effects in order. *)
Fixpoint run (v : server) (evs : list event) (st : world)
  : world * list effect :=
  match evs with
  | [] => (st, [])
  | ev :: rest =>
      let '(st1, fx1) := step v ev st in
      let '(st2, fx2) := run v rest st1 in
      (st2, fx1 ++ fx2)
  end.

Inductive reachable (v : server) : world -> Prop :=
| reachable_init : reachable v init
| reachable_step st ev :
    reachable v st -> enabled st ev = true -> reachable v (step v ev st).1.

Fixpoint all_enabled (v : server) (evs : list event) (st : world) : bool :=
  match evs with
  | [] => true
  | ev :: rest => enabled st ev && all_enabled v rest (step v ev st).1
  end.

(** ** Predicates used in the statements *)

(** A room code as [generateRoomCode] makes them. *)
Definition is_code (k : string) : Prop :=
  String.length k = 6 /\ Forall in_chars (list_ascii_of_string k).

(** What holds of the registry, the token index and the closure variables
    in every state the broker can reach. *)
Record well_formed (st : world) : Prop := WellFormed {
  wf_rooms : forall k r, rooms st !! k = Some r -> is_code k;
  wf_tokens : forall t k, reconnectionTokens st !! t = Some k -> t <> "";
  wf_sessions :
    forall ws s k,
      sessions st !! ws = Some s -> currentRoom s = Some k -> is_code k
}.

(** The room slot of a role. *)
Definition slot (d : device) (r : room) : option socket :=
  match d with
  | Pc => pc r
  | Mobile => mobile r
  end.

Definition opposite (d : device) : device :=
  match d with
  | Pc => Mobile
  | Mobile => Pc
  end.

(** Socket [s] is bound to the room with code [k] in role [d]. *)
Definition bound_to (st : world) (k : string) (d : device) (s : socket)
  : Prop :=
  exists r, rooms st !! k = Some r /\ slot d r = Some s.

(** Room [r] references socket [s] in one of its two slots. *)
Definition refs (r : room) (s : socket) : Prop :=
  pc r = Some s \/ mobile r = Some s.

(** No socket is referenced by two rooms. *)
Definition exclusive (st : world) : Prop :=
  forall k1 k2 r1 r2 s,
    rooms st !! k1 = Some r1 -> rooms st !! k2 = Some r2 ->
    refs r1 s -> refs r2 s -> k1 = k2.

(** No room references socket [s]. *)
Definition unreferenced (st : world) (s : socket) : Prop :=
  forall k r, rooms st !! k = Some r -> ~ refs r s.

(** The code of the room to which a frame binds its sender: the reclaimed
    or newly generated code for [register_pc], the upper-cased code of a
    [join_room] that finds its room; no room for any other frame. *)
Definition target_room (v : server) (o : oracle) (message : option json)
  (st : world) : option string :=
  match message with
  | Some data =>
      if type_is data "register_pc" then
        match v with
        | Legacy => Some (generateRoomCode (random o))
        | Reconnecting =>
            match reclaim_target data st with
            | Some (roomCode, _, _) => Some roomCode
            | None => Some (generateRoomCode (random o))
            end
        end
      else if type_is data "join_room" then
        match get data "roomCode" with
        | Some (JStr supplied) =>
            match rooms st !! toUpperCase supplied with
            | Some _ => Some (toUpperCase supplied)
            | None => None
            end
        | _ => None
        end
      else None
  | None => None
  end.

(** The socket that an event binds, with the code of its room. *)
Definition binding (v : server) (ev : event) (st : world)
  : option (socket * string) :=
  match ev with
  | Message ws o message =>
      match target_room v o message st with
      | Some k => Some (ws, k)
      | None => None
      end
  | _ => None
  end.

(** Every socket that a room of [st'] references was referenced by the
    room of the same code in [st], unless [bound] names that socket and
    that code. *)
Definition refs_from (bound : option (socket * string)) (st st' : world)
  : Prop :=
  forall k r' s,
    rooms st' !! k = Some r' -> refs r' s ->
    (exists r, rooms st !! k = Some r /\ refs r s) \/ bound = Some (s, k).






(** The frames on which the [try] block throws: [JSON.parse] fails, the
    parsed value is [null], or a [join_room] frame carries no string
    [roomCode]. *)
Inductive malformed : option json -> Prop :=
| malformed_unparseable : malformed None
| malformed_null : malformed (Some JNull)
| malformed_join data :
    type_is data "join_room" = true ->
    (forall s, get data "roomCode" <> Some (JStr s)) ->
    malformed (Some data).

(** A frame that parses to a value other than [null] and whose [type] is
    none of the three that the handler knows. *)
Definition unrecognised (message : option json) : bool :=
  match message with
  | None => false
  | Some JNull => false
  | Some data =>
      negb (type_is data "register_pc" || type_is data "join_room"
            || type_is data "relay")
  end.

(** The outcome of a registration that makes a new room: the answer
    [registered], with the new code, the new token and
    [isReconnection: false], goes to the sender alone; the new room holds
    the sender as [pc] and nobody as [mobile]; the index maps the new
    token to the new code; the sender's variables name the room; and
    nothing else changes. *)
Definition registers_new_room (o : oracle) (ws : socket) (st : world)
  (result : world * list effect) : Prop :=
  let code := generateRoomCode (random o) in
  let token := generateReconnectionToken o (clock st) in
  exists reply r,
    result.2 = [Send ws reply]
    /\ get reply "type" = Some (JStr "registered")
    /\ get reply "roomCode" = Some (JStr code)
    /\ get reply "reconnectionToken" = Some (JStr token)
    /\ get reply "isReconnection" = Some (JBool false)
    /\ rooms result.1 !! code = Some r
    /\ pc r = Some ws /\ mobile r = None
    /\ reconnectionToken r = Some token
    /\ createdAt r = Some (clock st) /\ cleanupTimeout r = None
    /\ reconnectionTokens result.1 !! token = Some code
    /\ session_of result.1 ws = Session (Some code) (Some Pc)
    /\ (forall k, k <> code -> rooms result.1 !! k = rooms st !! k)
    /\ (forall t, t <> token ->
                  reconnectionTokens result.1 !! t
                  = reconnectionTokens st !! t)
    /\ timers result.1 = timers st
    /\ readyState result.1 = readyState st.

(** ** The status endpoints, and relations between states *)

(** [app.get('/health')]: [uptime] is the value of [process.uptime()]. *)
Definition health (uptime : Q) (st : world) : json :=
  JObj [("status", JStr "ok");
        ("activeRooms",
         JNum (Finite (inject_Z (Z.of_nat (size (rooms st))))));
        ("uptime", JNum (Finite uptime))].

(** The object that [app.get('/rooms')] pushes for one room of the
    registry: [{ code, hasPc: room.pc !== null, hasMobile: room.mobile !==
    null }]. *)
Definition room_entry (code : string) (r : room) : json :=
  JObj [("code", JStr code);
        ("hasPc", JBool (bool_decide (pc r <> None)));
        ("hasMobile", JBool (bool_decide (mobile r <> None)))].

(** A connection has no room to act on: [currentRoom] is unset, or the
    registry has no room under it. *)
Definition roomless (st : world) (ws : socket) : Prop :=
  forall k, currentRoom (session_of st ws) = Some k -> rooms st !! k = None.

(** The room that a [register_pc] frame stores as a new room, with its
    code; no room when the frame reclaims a room or the event is not a
    registration. *)
Definition registered_room (v : server) (ev : event) (st : world)
  : option (string * room) :=
  match ev with
  | Message ws o (Some data) =>
      if type_is data "register_pc" then
        match v with
        | Legacy =>
            Some (generateRoomCode (random o),
                  Room (Some ws) None None None None)
        | Reconnecting =>
            match reclaim_target data st with
            | Some _ => None
            | None =>
                Some (generateRoomCode (random o),
                      Room (Some ws) None
                        (Some (generateReconnectionToken o (clock st)))
                        (Some (clock st)) None)
            end
        end
      else None
  | _ => None
  end.

(** The events whose handler calls [rooms.delete]: a cleanup timer, and in
    the first server the close of a connection. *)
Definition removes (v : server) (ev : event) : bool :=
  match ev with
  | TimerFired _ => true
  | CloseEvent _ =>
      match v with
      | Legacy => true
      | Reconnecting => false
      end
  | _ => false
  end.

(** What a handler keeps of a room it updates in place. *)
Definition kept (v : server) (r r' : room) : Prop :=
  reconnectionToken r' = reconnectionToken r
  /\ createdAt r' = createdAt r
  /\ (is_Some (pc r) -> is_Some (pc r'))
  /\ (v = Legacy -> cleanupTimeout r' = cleanupTimeout r).

(** The ways in which one event changes the registry: not at all, one
    room updated in place, a new room stored, or one room deleted. *)
Inductive rooms_change (v : server) (new : option (string * room))
  (removing : bool) (st st' : world) : Prop :=
| change_none :
    rooms st' = rooms st -> rooms_change v new removing st st'
| change_update k r r1 :
    rooms st !! k = Some r -> kept v r r1 ->
    rooms st' = <[k := r1]> (rooms st) ->
    rooms_change v new removing st st'
| change_new k r1 :
    new = Some (k, r1) -> rooms st' = <[k := r1]> (rooms st) ->
    rooms_change v new removing st st'
| change_delete k :
    removing = true -> rooms st' = delete k (rooms st) ->
    rooms_change v new removing st st'.

(** A handler result whose messages for socket [s] go to the sender or to
    a socket that is open in the resulting state, and which closes [s]
    only if [s] was open. *)
Definition polite (sender : option socket) (st : world)
  (result : world * list effect) (s : socket) : Prop :=
  (forall msg,
     In (Send s msg) result.2 ->
     sender = Some s \/ is_open result.1 s = true)
  /\ (In (Close s) result.2 ->
      is_open st s = true /\ is_open result.1 s = false).




(** Every frame of the run that binds its sender to a room comes from a
    connection that has not been bound before. *)
Fixpoint bound_once (v : server) (evs : list event) (st : world) : bool :=
  match evs with
  | [] => true
  | ev :: rest =>
      match binding v ev st with
      | Some (ws, _) =>
          match currentRoom (session_of st ws) with
          | None => true
          | Some _ => false
          end
      | None => true
      end
      && bound_once v rest (step v ev st).1
  end.

(** Every socket that a room references has its [currentRoom] set. *)
Definition referenced_are_bound (st : world) : Prop :=
  forall k r s,
    rooms st !! k = Some r -> refs r s ->
    is_Some (currentRoom (session_of st s)).

(** ** The PC-side client ([RelayClient], [src/unnamed/part_000]) *)

Module RelayClient.

(** [readyState] of the client's sockets. *)
Inductive conn_state : Type := Connecting | Open | Closing | Closed.

(** What a pending [setTimeout] will run: the reconnection after a
    close, or the registration timeout of one call of [connect]. *)
Inductive task : Type :=
| Reconnect
| RegistrationTimeout (attempt : nat).

(** The promise returned by one call of [connect]. *)
Inductive promise : Type :=
| Pending
| Resolved (value : option json)
| Rejected.

(** The fields of a [RelayClient] ([roomCode] is a JavaScript value:
    [None] is [undefined], [Some JNull] is [null]), followed by what the
    runtime holds for it: the sockets it has created, the pending
    timers, the promises of its [connect] calls and the clock.
    [messageHandlers] lists the registered callbacks by number. *)
Record state : Type := State {
  url_valid : bool;
  ws : option nat;
  roomCode : option json;
  isConnected : bool;
  messageHandlers : list nat;
  reconnectInterval : option nat;
  sockets : gmap nat conn_state;
  timers : gmap nat (Z * task);
  promises : gmap nat promise;
  next_socket : nat;
  next_timer : nat;
  now : Z
}.

(** [new RelayClient(relayUrl)]; [valid] tells whether
    [new WebSocket(relayUrl)] accepts the URL. *)
Definition constructor (valid : bool) : state :=
  State valid None (Some JNull) false [] None ∅ ∅ ∅ 0 0 0.

Inductive effect : Type :=
| Transmit (socket : nat) (frame : json)
| CloseSocket (socket : nat)
| Invoke (handler : nat) (payload : option json).

Definition set_client (w : option nat) (code : option json) (conn : bool)
  (handlers : list nat) (interval : option nat) (s : state) : state :=
  State (url_valid s) w code conn handlers interval (sockets s) (timers s)
        (promises s) (next_socket s) (next_timer s) (now s).

Definition set_sockets (f : gmap nat conn_state -> gmap nat conn_state)
  (s : state) : state :=
  State (url_valid s) (ws s) (roomCode s) (isConnected s)
        (messageHandlers s) (reconnectInterval s) (f (sockets s))
        (timers s) (promises s) (next_socket s) (next_timer s) (now s).

Definition set_timers (f : gmap nat (Z * task) -> gmap nat (Z * task))
  (s : state) : state :=
  State (url_valid s) (ws s) (roomCode s) (isConnected s)
        (messageHandlers s) (reconnectInterval s) (sockets s)
        (f (timers s)) (promises s) (next_socket s) (next_timer s) (now s).

(** Settling a promise: only a pending promise changes. *)
Definition settle (attempt : nat) (outcome : promise) (s : state) : state :=
  match promises s !! attempt with
  | Some Pending =>
      State (url_valid s) (ws s) (roomCode s) (isConnected s)
            (messageHandlers s) (reconnectInterval s) (sockets s)
            (timers s) (<[attempt := outcome]> (promises s))
            (next_socket s) (next_timer s) (now s)
  | _ => s
  end.

(** [setTimeout(task, delay)]: the new state and the timer's number. *)
Definition setTimeout (what : task) (delay : Z) (s : state) : state * nat :=
  (State (url_valid s) (ws s) (roomCode s) (isConnected s)
         (messageHandlers s) (reconnectInterval s) (sockets s)
         (<[next_timer s := (now s + delay, what)%Z]> (timers s))
         (promises s) (next_socket s) (S (next_timer s)) (now s),
   next_timer s).

Definition frame_register_pc : json := JObj [("type", JStr "register_pc")].

(** [{ type: 'relay', payload: data }] before [JSON.stringify], which
    leaves out an [undefined] payload. *)
Definition frame_relay (data : option json) : json :=
  JObj (("type", JStr "relay") ::
        match data with
        | Some p => [("payload", p)]
        | None => []
        end).

(** [connect()]: the promise executor runs at once.  The previous
    socket, if any, is neither closed nor forgotten by the runtime. *)
Definition connect (s : state) : state :=
  let attempt := next_socket s in
  let s1 :=
    State (url_valid s) (ws s) (roomCode s) (isConnected s)
          (messageHandlers s) (reconnectInterval s) (sockets s) (timers s)
          (<[attempt := Pending]> (promises s))
          (S attempt) (next_timer s) (now s) in
  if url_valid s then
    let s2 :=
      set_sockets <[attempt := Connecting]>
        (set_client (Some attempt) (roomCode s1) (isConnected s1)
           (messageHandlers s1) (reconnectInterval s1) s1) in
    (setTimeout (RegistrationTimeout attempt) 10000 s2).1
  else settle attempt Rejected s1.

(** [this.ws.send(...)] in the [open] handler; [None] is the exception
    that reading [send] of [null] or sending on a socket that is still
    connecting raises.  A socket that is closing or closed drops the
    frame. *)
Definition on_open (s : state) : option (state * list effect) :=
  match ws s with
  | None => None
  | Some current =>
      match sockets s !! current with
      | Some Connecting => None
      | Some Open => Some (s, [Transmit current frame_register_pc])
      | _ => Some (s, [])
      end
  end.

(** The [message] handler of the socket made by [attempt]; [message] is
    the result of [JSON.parse], [None] when it throws.  Every exception
    is caught and logged.  The callbacks are taken not to call back into
    the client. *)
Definition on_message (attempt : nat) (message : option json) (s : state)
  : state * list effect :=
  match message with
  | None => (s, [])
  | Some JNull => (s, [])
  | Some data =>
      if type_is data "registered" then
        let s1 :=
          set_client (ws s) (get data "roomCode") true
            (messageHandlers s) (reconnectInterval s) s in
        (settle attempt (Resolved (get data "roomCode")) s1, [])
      else if type_is data "mobile_connected" then (s, [])
      else if type_is data "mobile_disconnected" then (s, [])
      else if type_is data "data" then
        (s, map (fun handler => Invoke handler (get data "payload"))
              (messageHandlers s))
      else (s, [])
  end.

(** The [close] handler. *)
Definition on_close (s : state) : state :=
  let s1 :=
    set_client (ws s) (Some JNull) false (messageHandlers s)
      (reconnectInterval s) s in
  let '(s2, id) := setTimeout Reconnect 5000 s1 in
  set_client (ws s2) (roomCode s2) (isConnected s2) (messageHandlers s2)
    (Some id) s2.

(** The [error] handler: [reject(error)]. *)
Definition on_error (attempt : nat) (s : state) : state :=
  settle attempt Rejected s.

(** The callback of the ten-second timer of [connect]. *)
Definition registration_timeout (attempt : nat) (s : state) : state :=
  if isConnected s then s else settle attempt Rejected s.

(** [sendToMobile(data)] with its return value. *)
Definition sendToMobile (data : option json) (s : state)
  : bool * list effect :=
  if negb (isConnected s) then (false, [])
  else match ws s with
       | None => (false, [])
       | Some current =>
           match sockets s !! current with
           | Some Open => (true, [Transmit current (frame_relay data)])
           | _ => (false, [])
           end
       end.

(** [onMessage(handler)] *)
Definition onMessage (handler : nat) (s : state) : state :=
  set_client (ws s) (roomCode s) (isConnected s)
    (messageHandlers s ++ [handler]) (reconnectInterval s) s.

Definition getRoomCode (s : state) : option json := roomCode s.

Definition isRelayConnected (s : state) : bool := isConnected s.

(** [socket.close()]: an open or connecting socket starts closing. *)
Definition close_socket (socket : nat) (s : state) : state :=
  match sockets s !! socket with
  | Some Open | Some Connecting => set_sockets <[socket := Closing]> s
  | _ => s
  end.

(** [disconnect()] *)
Definition disconnect (s : state) : state * list effect :=
  let s1 :=
    match reconnectInterval s with
    | Some id => set_timers (delete id) s
    | None => s
    end in
  let '(s2, fx) :=
    match ws s1 with
    | Some current =>
        (set_client None (roomCode s1) (isConnected s1)
           (messageHandlers s1) (reconnectInterval s1)
           (close_socket current s1),
         [CloseSocket current])
    | None => (s1, [])
    end in
  (set_client (ws s2) (Some JNull) false (messageHandlers s2)
     (reconnectInterval s2) s2, fx).

(** What happens to a client: calls of its methods, events of its
    sockets, and timers that fire. *)
Inductive event : Type :=
| CallConnect
| CallSendToMobile (data : option json)
| CallOnMessage (handler : nat)
| CallDisconnect
| SocketOpen (socket : nat)
| SocketMessage (socket : nat) (message : option json)
| SocketClose (socket : nat)
| SocketError (socket : nat)
| TimerFired (id : nat)
| Elapse (ms : Z).

(** One event; [None] is an exception that nothing catches.  A socket
    is open when its [open] event fires, has started closing when its
    [error] event fires and is closed when its [close] event fires. *)
Definition step (ev : event) (s : state) : option (state * list effect) :=
  match ev with
  | CallConnect => Some (connect s, [])
  | CallSendToMobile data => Some (s, (sendToMobile data s).2)
  | CallOnMessage handler => Some (onMessage handler s, [])
  | CallDisconnect => Some (disconnect s)
  | SocketOpen socket => on_open (set_sockets <[socket := Open]> s)
  | SocketMessage socket message => Some (on_message socket message s)
  | SocketClose socket =>
      Some (on_close (set_sockets <[socket := Closed]> s), [])
  | SocketError socket => Some (on_error socket (close_socket socket s), [])
  | TimerFired id =>
      match timers s !! id with
      | Some (_, Reconnect) =>
          Some (connect (set_timers (delete id) s), [])
      | Some (_, RegistrationTimeout attempt) =>
          Some (registration_timeout attempt (set_timers (delete id) s),
                [])
      | None => Some (s, [])
      end
  | Elapse ms =>
      Some (State (url_valid s) (ws s) (roomCode s) (isConnected s)
              (messageHandlers s) (reconnectInterval s) (sockets s)
              (timers s) (promises s) (next_socket s) (next_timer s)
              (now s + ms), [])
  end.

End RelayClient.

(** ** Sample frames and oracles for the examples *)

(** Every draw is 0: the generated code is [AAAAAA]. *)
Definition oracle_A : oracle := Oracle (fun _ => 0%Q) "k3j9".

(** Every draw is 1/32: the generated code is [BBBBBB]. *)
Definition oracle_B : oracle := Oracle (fun _ => (1 # 32)%Q) "x7p2".

(** The draws of [oracle_A] with another token tail. *)
Definition oracle_A2 : oracle := Oracle (fun _ => 0%Q) "m4q8".

Definition frame_register : json := JObj [("type", JStr "register_pc")].

Definition frame_reconnect (token code : string) : json :=
  JObj [("type", JStr "register_pc"); ("reconnectionToken", JStr token);
        ("requestedRoomCode", JStr code)].

Definition frame_join (code : string) : json :=
  JObj [("type", JStr "join_room"); ("roomCode", JStr code)].

Definition frame_relay (payload : json) : json :=
  JObj [("type", JStr "relay"); ("payload", payload)].

(** A PC (socket 1) has registered room [AAAAAA] with token [k3j90], a
    mobile (socket 2) has joined, and a third connection is open. *)
Definition paired_trace : list event :=
  [Connection 1; Message 1 oracle_A (Some frame_register);
   Connection 2; Message 2 oracle_A (Some (frame_join "aaaaaa"));
   Connection 3].

Definition paired (v : server) : world := (run v paired_trace init).1.

(** One socket registers twice. *)
Definition double_register_trace : list event :=
  [Connection 1; Message 1 oracle_A (Some frame_register);
   Message 1 oracle_B (Some frame_register)].

(** One socket joins two rooms in turn. *)
Definition double_join_trace : list event :=
  [Connection 1; Message 1 oracle_A (Some frame_register);
   Connection 2; Message 2 oracle_B (Some frame_register);
   Connection 3; Message 3 oracle_A (Some (frame_join "AAAAAA"));
   Message 3 oracle_A (Some (frame_join "BBBBBB"))].

(** A PC reconnects with its token while its old connection is still
    open; the close event of the old connection follows, and then almost
    an hour passes. *)
Definition reconnected_trace : list event :=
  [Connection 1; Message 1 oracle_A (Some frame_register);
   Connection 2; Message 2 oracle_A (Some (frame_join "AAAAAA"));
   Connection 3;
   Message 3 oracle_B (Some (frame_reconnect "k3j90" "AAAAAA"));
   CloseEvent 1; Elapse 3599000].

Definition reconnected : world := (run Reconnecting reconnected_trace init).1.

(** One second later the timer of the old connection is due. *)
Definition early_cleanup_trace : list event :=
  [Elapse 1000; TimerFired 0].

(** The scenario of the specification: register, join, relay, the PC
    disconnects, reconnects a minute later with its token and relays
    again. *)
Definition scenario_trace : list event :=
  [Connection 1; Message 1 oracle_A (Some frame_register);
   Connection 2; Message 2 oracle_A (Some (frame_join "AAAAAA"));
   Message 1 oracle_A (Some (frame_relay (JStr "X")));
   CloseEvent 1; Elapse 60000;
   Connection 3;
   Message 3 oracle_B (Some (frame_reconnect "k3j90" "AAAAAA"));
   Message 3 oracle_B (Some (frame_relay (JStr "Y")))].

(** The PC of the paired room has closed and the grace period has passed. *)
Definition orphaned : world :=
  (run Reconnecting [CloseEvent 1; Elapse 3600000] (paired Reconnecting)).1.

(** A client that has called [connect], and the same client after its
    socket has opened and the broker has answered with code [AAAAAA]. *)
Definition client_connecting : RelayClient.state :=
  RelayClient.connect
    (RelayClient.onMessage 7
       (RelayClient.onMessage 5 (RelayClient.constructor true))).

Definition client_registered : RelayClient.state :=
  (RelayClient.on_message 0 (Some (msg_registered_legacy "AAAAAA"))
     (RelayClient.set_sockets <[0 := RelayClient.Open]> client_connecting)).1.

(** A PC reconnects with its token while its old connection is still
    open.  The close event of the old connection follows, a minute later
    the new PC closes as well, and a third PC connects. *)
Definition stale_timer_trace : list event :=
  [Connection 1; Message 1 oracle_A (Some frame_register);
   Connection 2; Message 2 oracle_A (Some (frame_join "AAAAAA"));
   Connection 3;
   Message 3 oracle_B (Some (frame_reconnect "k3j90" "AAAAAA"));
   CloseEvent 1; Elapse 60000; CloseEvent 3; Connection 4].

Definition twice_orphaned : world :=
  (run Reconnecting stale_timer_trace init).1.

(** The third PC reclaims the room with the token; 59 minutes later the
    timer set by the close event of the first connection is due. *)
Definition reclaimed_once_more : world :=
  (step Reconnecting
     (Message 4 oracle_B (Some (frame_reconnect "k3j90" "AAAAAA")))
     twice_orphaned).1.

Definition stale_timer_fires : list event :=
  [Elapse 3540000; TimerFired 0].

(** A second mobile (socket 3) joins the paired room. *)
Definition rejoined (v : server) : world :=
  (step v (Message 3 oracle_A (Some (frame_join "AAAAAA"))) (paired v)).1.

(** * Properties *)

(** ** Strings *)

Lemma length_append (s t : string) :
  String.length (s +:+ t) = String.length s + String.length t.
Proof. induction s as [|c s IH]; simpl; [reflexivity | now rewrite IH]. Qed.

Lemma list_ascii_append (s t : string) :
  list_ascii_of_string (s +:+ t)
  = list_ascii_of_string s ++ list_ascii_of_string t.
Proof. induction s as [|c s IH]; simpl; [reflexivity | now rewrite IH]. Qed.

(** ** Numbers, and what the peer reads *)

(** [JSON.parse] reads [0.1] as the double next to it, a literal half
    way between two doubles as the one with the even mantissa, the
    largest literal below [2^1024 - 2^970] as the largest double, and
    anything from there on as an infinity. *)
Example JSON_parse_number_tenth :
  JSON_parse_number (1 # 10)
  = Finite (3602879701896397 # 36028797018963968).
Proof. vm_compute. reflexivity. Qed.

Example JSON_parse_number_tie :
  JSON_parse_number (inject_Z 9007199254740993)
  = Finite (inject_Z 9007199254740992)
  /\ JSON_parse_number (inject_Z 9007199254740995)
     = Finite (inject_Z 9007199254740996).
Proof. vm_compute. split; reflexivity. Qed.

Example JSON_parse_number_range :
  JSON_parse_number (inject_Z (2 ^ 1024 - 2 ^ 970 - 1))
  = Finite (inject_Z (2 ^ 1024 - 2 ^ 971))
  /\ JSON_parse_number (inject_Z (2 ^ 1024 - 2 ^ 970)) = Infinity false
  /\ JSON_parse_number (- inject_Z (10 ^ 400)) = Infinity true
  /\ JSON_parse_number (1 / inject_Z (2 ^ 1075)) = Finite 0.
Proof. vm_compute. repeat split; reflexivity. Qed.

Lemma assoc_serialised k fields :
  assoc k (map (fun kv => (kv.1, serialised kv.2)) fields)
  = option_map serialised (assoc k fields).
Proof.
  induction fields as [|[k' v] fields IH]; [reflexivity|].
  simpl. destruct (String.eqb k k'); [reflexivity | exact IH].
Qed.

Lemma get_serialised v k :
  get (serialised v) k = option_map serialised (get v k).
Proof.
  destruct v as [| |[q|neg]| | |fields]; try reflexivity.
  apply assoc_serialised.
Qed.

Lemma serialised_finite v : finite v = true -> serialised v = v.
Proof.
  revert v. fix IH 1. intros [| |[q|neg]| |items|fields] Hfin;
    try reflexivity; try discriminate Hfin; simpl in *; f_equal.
  - induction items as [|x items IHitems]; [reflexivity|].
    simpl in *. apply andb_prop in Hfin as [Hx Hitems].
    f_equal; [by apply IH | by apply IHitems].
  - induction fields as [|[k x] fields IHfields]; [reflexivity|].
    simpl in *. apply andb_prop in Hfin as [Hx Hfields].
    f_equal; [f_equal; by apply IH | by apply IHfields].
Qed.


(** ** The code generator *)

Example generateRoomCode_zero : generateRoomCode (fun _ => 0%Q) = "AAAAAA".
Proof. reflexivity. Qed.

Example generateRoomCode_mixed :
  generateRoomCode (fun i => (Z.of_nat (5 * i + 3) # 32)%Q) = "DJPUZ6".
Proof. vm_compute. reflexivity. Qed.

Example toString36_now : toString36 1700000000000 = "loyw3v28".
Proof. vm_compute. reflexivity. Qed.

Example toUpperCase_code : toUpperCase "abC2z9" = "ABC2Z9".
Proof. reflexivity. Qed.

Lemma random_index_range (r : Q) :
  unit_interval r = true -> (0 <= random_index r < 32)%Z.
Proof.
  unfold unit_interval, random_index.
  intros H. apply andb_prop in H as [Hlo Hhi].
  apply negb_true_iff in Hhi.
  destruct r as [a b].
  unfold Qle_bool in Hlo, Hhi. simpl in Hlo, Hhi.
  apply Z.leb_le in Hlo. apply Z.leb_gt in Hhi.
  unfold Qfloor, Qmult, inject_Z. simpl Qnum. simpl Qden.
  rewrite Pos.mul_1_r.
  assert (Hb : (0 < Z.pos b)%Z) by reflexivity.
  split.
  - apply Z.div_pos; lia.
  - apply Z.div_lt_upper_bound; lia.
Qed.

Lemma charAt_chars (z : Z) :
  (0 <= z < 32)%Z ->
  exists c, charAt chars z = String c "" /\ in_chars c.
Proof.
  intros Hz. unfold charAt.
  destruct (Z.ltb_spec z 0) as [Hneg|_]; [lia|].
  assert (Hn : Z.to_nat z < 32) by lia.
  generalize dependent (Z.to_nat z). intros n Hn.
  do 32 (destruct n as [|n];
         [eexists; split; [reflexivity | unfold in_chars; simpl; tauto] |]).
  lia.
Qed.

Lemma generateRoomCode_loop_spec (rnd : nat -> Q) (n : nat) :
  forall (i : nat) (code : string),
    (forall j, i <= j < i + n -> unit_interval (rnd j) = true) ->
    String.length (generateRoomCode_loop rnd i n code)
    = String.length code + n
    /\ (Forall in_chars (list_ascii_of_string code) ->
        Forall in_chars
          (list_ascii_of_string (generateRoomCode_loop rnd i n code))).
Proof.
  induction n as [|n IH]; intros i code Hrnd; simpl.
  - split; [lia | tauto].
  - destruct (charAt_chars (random_index (rnd i))) as (c & Hc & Hin).
    { apply random_index_range, Hrnd. lia. }
    rewrite Hc.
    destruct (IH (S i) (code +:+ String c "")) as [Hlen Hall].
    { intros j Hj. apply Hrnd. lia. }
    split.
    + rewrite Hlen, length_append. simpl. lia.
    + intros Hcode. apply Hall.
      rewrite list_ascii_append. apply Forall_app. split; [exact Hcode|].
      simpl. constructor; [exact Hin | constructor].
Qed.

(** C9.  Whenever the six calls of [Math.random()] return values in
    [0, 1), [generateRoomCode] returns a string of exactly six characters,
    each taken from the fixed alphabet [chars]; that alphabet has 32
    distinct symbols, and none of them is [0], [O], [1] or [I]. *)
Theorem generateRoomCode_unambiguous (rnd : nat -> Q) :
  (forall i, i < 6 -> unit_interval (rnd i) = true) ->
  String.length (generateRoomCode rnd) = 6
  /\ Forall in_chars (list_ascii_of_string (generateRoomCode rnd))
  /\ 32 <= String.length chars
  /\ NoDup (list_ascii_of_string chars)
  /\ ~ in_chars "0" /\ ~ in_chars "O" /\ ~ in_chars "1" /\ ~ in_chars "I".
Proof.
  intros Hrnd.
  destruct (generateRoomCode_loop_spec rnd 6 0 "") as [Hlen Hall].
  { intros j Hj. apply Hrnd. lia. }
  split; [exact Hlen|].
  split; [apply Hall; constructor|].
  split; [simpl; lia|].
  split.
  { apply (bool_decide_unpack _). vm_compute. reflexivity. }
  unfold in_chars; simpl.
  repeat split; intros H;
    repeat (destruct H as [H|H]; [discriminate H|]); exact H.
Qed.

Lemma generateRoomCode_unambiguous_witness :
  String.length (generateRoomCode (fun i => (Z.of_nat (5 * i + 3) # 32)%Q)) = 6
  /\ Forall in_chars
       (list_ascii_of_string
          (generateRoomCode (fun i => (Z.of_nat (5 * i + 3) # 32)%Q)))
  /\ 32 <= String.length chars
  /\ NoDup (list_ascii_of_string chars)
  /\ ~ in_chars "0" /\ ~ in_chars "O" /\ ~ in_chars "1" /\ ~ in_chars "I".
Proof.
  apply (generateRoomCode_unambiguous (fun i => (Z.of_nat (5 * i + 3) # 32)%Q)).
  intros i Hi.
  do 6 (destruct i as [|i]; [reflexivity|]). lia.
Defined.

Lemma generateRoomCode_is_code (o : oracle) :
  oracle_ok o = true -> is_code (generateRoomCode (random o)).
Proof.
  unfold oracle_ok. intros H. rewrite forallb_forall in H.
  destruct (generateRoomCode_loop_spec (random o) 6 0 "") as [Hlen Hall].
  { intros j Hj. apply H. apply in_seq. lia. }
  split; [exact Hlen | apply Hall; constructor].
Qed.

Lemma is_code_nonempty k : is_code k -> k <> "".
Proof. intros [Hlen _] ->. discriminate Hlen. Qed.

Lemma toString36_loop_nonempty fuel : forall n acc,
  acc <> "" -> toString36_loop fuel n acc <> "".
Proof.
  induction fuel as [|fuel IH]; intros n acc Hacc; simpl; [exact Hacc|].
  assert (Hacc' : charAt digits36 (n mod 36) +:+ acc <> "").
  { intros Heq. apply (f_equal String.length) in Heq.
    rewrite length_append in Heq. simpl in Heq.
    destruct acc; [congruence | simpl in Heq; lia]. }
  destruct (n / 36 =? 0)%Z; [exact Hacc' | apply IH, Hacc'].
Qed.

Lemma charAt_digits36 (z : Z) :
  (0 <= z < 36)%Z -> exists c, charAt digits36 z = String c "".
Proof.
  intros Hz. unfold charAt.
  destruct (Z.ltb_spec z 0) as [Hneg|_]; [lia|].
  assert (Hn : Z.to_nat z < 36) by lia.
  generalize dependent (Z.to_nat z). intros n Hn.
  do 36 (destruct n as [|n]; [eexists; reflexivity |]).
  lia.
Qed.

Lemma toString36_nonempty (n : Z) : toString36 n <> "".
Proof.
  unfold toString36.
  destruct (n <? 0)%Z; [discriminate|].
  simpl.
  destruct (charAt_digits36 (n mod 36)) as [c Hc].
  { apply Z.mod_pos_bound. lia. }
  rewrite Hc. simpl.
  destruct (n / 36 =? 0)%Z; [discriminate|].
  apply toString36_loop_nonempty. discriminate.
Qed.

Lemma generateReconnectionToken_nonempty o now :
  generateReconnectionToken o now <> "".
Proof.
  unfold generateReconnectionToken. intros Heq.
  apply (f_equal String.length) in Heq. rewrite length_append in Heq.
  simpl in Heq.
  pose proof (toString36_nonempty now) as Hne.
  destruct (toString36 now); [congruence | simpl in Heq; lia].
Qed.

(** ** Reading the state after an update *)

Ltac unfold_world :=
  unfold bind_session, with_rooms, with_tokens, with_sessions,
    with_readyState, with_timers, clearTimeout, close_if_open in *;
  simpl in *.

Ltac map_cases :=
  repeat match goal with
    | H : <[?k := _]> _ !! ?k' = Some _ |- _ =>
        destruct (decide (k = k'));
        [subst; rewrite lookup_insert_eq in H
        | rewrite lookup_insert_ne in H by assumption]
    | H : delete ?k _ !! ?k' = Some _ |- _ =>
        apply lookup_delete_Some in H as [? H]
    end.

Lemma well_formed_init : well_formed init.
Proof. split; intros *; simpl; rewrite lookup_empty; discriminate. Qed.

Lemma well_formed_update (st st' : world) :
  well_formed st ->
  (forall k r, rooms st' !! k = Some r ->
               is_Some (rooms st !! k) \/ is_code k) ->
  (forall t k, reconnectionTokens st' !! t = Some k ->
               is_Some (reconnectionTokens st !! t) \/ t <> "") ->
  (forall ws s k, sessions st' !! ws = Some s -> currentRoom s = Some k ->
                  (exists s0, sessions st !! ws = Some s0
                              /\ currentRoom s0 = Some k)
                  \/ is_code k) ->
  well_formed st'.
Proof.
  intros [Hr Ht Hs] Hr' Ht' Hs'. split.
  - intros k r Hk. destruct (Hr' k r Hk) as [[r0 H0]|H0]; eauto.
  - intros t k Hk. destruct (Ht' t k Hk) as [[k0 H0]|H0]; eauto.
  - intros ws s k Hw Hc.
    destruct (Hs' ws s k Hw Hc) as [(s0 & H0 & H1)|H0]; eauto.
Qed.

Lemma reclaim_target_Some data st k tok r :
  reclaim_target data st = Some (k, tok, r) ->
  get data "reconnectionToken" = Some (JStr tok)
  /\ get data "requestedRoomCode" = Some (JStr k)
  /\ tok <> "" /\ k <> ""
  /\ reconnectionTokens st !! tok = Some k
  /\ rooms st !! k = Some r.
Proof.
  unfold reclaim_target. intros H.
  destruct (truthy (get data "reconnectionToken")) eqn:Ht; [|discriminate].
  destruct (truthy (get data "requestedRoomCode")) eqn:Hr; [|discriminate].
  simpl in H.
  destruct (get data "reconnectionToken") as [[| | |token| |]|]; try discriminate.
  destruct (get data "requestedRoomCode") as [[| | |req| |]|]; try discriminate.
  destruct (reconnectionTokens st !! token) as [stored|] eqn:Hs; [|discriminate].
  destruct (String.eqb_spec stored req) as [->|]; [|discriminate].
  destruct (rooms st !! req) as [r0|] eqn:Hroom; [|discriminate].
  injection H as <- <- <-.
  simpl in Ht, Hr.
  repeat split; try reflexivity; try assumption.
  - intros ->. discriminate.
  - intros ->. discriminate.
Qed.

Lemma well_formed_register_pc_legacy o ws st :
  oracle_ok o = true -> well_formed st ->
  well_formed (register_pc_legacy o ws st).1.
Proof.
  intros Hok Hwf. pose proof (generateRoomCode_is_code o Hok) as Hcode.
  apply (well_formed_update _ _ Hwf);
    unfold register_pc_legacy; unfold_world; intros; map_cases; eauto.
  simplify_eq. simpl in *. simplify_eq. eauto.
Qed.

Lemma well_formed_register_pc o ws data st :
  oracle_ok o = true -> well_formed st ->
  well_formed (register_pc o ws data st).1.
Proof.
  intros Hok Hwf. pose proof (generateRoomCode_is_code o Hok) as Hcode.
  pose proof (generateReconnectionToken_nonempty o (clock st)) as Htok.
  unfold register_pc.
  destruct (reclaim_target data st) as [[[k tok] r]|] eqn:Hrt.
  - apply reclaim_target_Some in Hrt as (_ & _ & _ & _ & Hidx & Hroom).
    pose proof (wf_rooms st Hwf k r Hroom) as Hk.
    unfold close_if_open, clearTimeout.
    repeat case_match; simplify_eq;
      (apply (well_formed_update _ _ Hwf));
      unfold_world; intros; map_cases; eauto;
      simplify_eq; simpl in *; simplify_eq; eauto.
  - apply (well_formed_update _ _ Hwf);
      unfold_world; intros; map_cases; eauto.
    simplify_eq. simpl in *. simplify_eq. eauto.
Qed.

Lemma well_formed_join_room ws data st result :
  well_formed st -> join_room ws data st = Some result ->
  well_formed result.1.
Proof.
  intros Hwf. unfold join_room.
  destruct (get data "roomCode") as [[| | |supplied| |]|]; try discriminate.
  destruct (rooms st !! toUpperCase supplied) as [r|] eqn:Hroom.
  - pose proof (wf_rooms st Hwf _ r Hroom) as Hk.
    destruct (mobile r) as [old|]; [destruct (is_open st old) eqn:Hopen|];
      unfold close_if_open; rewrite ?Hopen; intros [= <-];
      (apply (well_formed_update _ _ Hwf));
      unfold_world; intros; map_cases; eauto;
      simplify_eq; simpl in *; simplify_eq; eauto.
  - intros [= <-]. exact Hwf.
Qed.

Lemma well_formed_relay ws data st :
  well_formed st -> well_formed (relay ws data st).1.
Proof.
  intros Hwf. unfold relay.
  destruct (live_room _ _); [destruct (deviceType _) as [[|]|]|]; exact Hwf.
Qed.

Lemma well_formed_on_message v o ws m st :
  oracle_ok o = true -> well_formed st ->
  well_formed (on_message v o ws m st).1.
Proof.
  intros Hok Hwf. unfold on_message, protocol_error.
  destruct m as [data|]; [|exact Hwf].
  destruct data; try exact Hwf;
    (destruct (type_is _ "register_pc");
     [destruct v;
      [apply well_formed_register_pc_legacy | apply well_formed_register_pc];
      assumption|]);
    (destruct (type_is _ "join_room");
     [destruct (join_room _ _ _) eqn:Hj;
      [eapply well_formed_join_room; eassumption | exact Hwf]|]);
    (destruct (type_is _ "relay"); [apply well_formed_relay, Hwf | exact Hwf]).
Qed.

Lemma well_formed_on_close v ws st :
  well_formed st -> well_formed (on_close v ws st).1.
Proof.
  intros Hwf. unfold on_close.
  destruct (currentRoom (session_of st ws)) as [k|]; [|exact Hwf].
  destruct (live_room st (Some k)) as [r|] eqn:Hlive; [|exact Hwf].
  assert (Hroom : rooms st !! k = Some r).
  { simpl in Hlive. destruct (String.eqb k ""); [discriminate | exact Hlive]. }
  destruct (deviceType _) as [[|]|]; [destruct v | |]; try exact Hwf;
    (apply (well_formed_update _ _ Hwf));
    unfold_world; intros; map_cases; eauto.
Qed.

Lemma well_formed_cleanup ws st :
  well_formed st -> well_formed (cleanup ws st).
Proof.
  intros Hwf. unfold cleanup.
  destruct (currentRoom _) as [k|]; [|exact Hwf].
  destruct (rooms st !! k) as [r|]; [|exact Hwf].
  destruct (reconnectionToken r) as [tok|]; [destruct (String.eqb tok "")|];
    (apply (well_formed_update _ _ Hwf));
    unfold_world; intros; map_cases; eauto.
Qed.

Lemma well_formed_step v st ev :
  well_formed st -> enabled st ev = true -> well_formed (step v ev st).1.
Proof.
  intros Hwf Hen.
  destruct ev as [ws|ws o m|ws|id|ms]; simpl in *.
  - apply (well_formed_update _ _ Hwf);
      unfold_world; intros; map_cases; eauto.
    by simplify_eq.
  - apply andb_prop in Hen as [Hok _].
    by apply well_formed_on_message.
  - apply well_formed_on_close.
    apply (well_formed_update _ _ Hwf); unfold_world; eauto.
  - destruct (timers st !! id) as [t|]; [|exact Hwf].
    apply well_formed_cleanup.
    apply (well_formed_update _ _ Hwf); unfold_world; eauto.
  - destruct Hwf as [Hr Ht Hs]. split; simpl; eauto.
Qed.

Lemma reachable_well_formed v st : reachable v st -> well_formed st.
Proof.
  induction 1 as [|st ev _ IH Hen];
    [apply well_formed_init | by apply well_formed_step].
Qed.

Lemma reachable_run v evs : forall st,
  reachable v st -> all_enabled v evs st = true ->
  reachable v (run v evs st).1.
Proof.
  induction evs as [|ev rest IH]; intros st Hst Hen; simpl in *.
  - exact Hst.
  - apply andb_prop in Hen as [Hev Hrest].
    pose proof (reachable_step v st ev Hst Hev) as Hnext.
    specialize (IH _ Hnext Hrest).
    destruct (step v ev st) as [st1 fx1]. simpl in *.
    destruct (run v rest st1) as [st2 fx2]. exact IH.
Qed.

(** ** Dispatch on the message type *)

Lemma type_is_unique data a b :
  type_is data a = true -> a <> b -> type_is data b = false.
Proof.
  unfold type_is.
  destruct (get data "type") as [[| | |s| |]|]; try discriminate.
  intros Ha%String.eqb_eq Hne. subst. by apply String.eqb_neq.
Qed.

Lemma on_message_register_pc v o ws data st :
  type_is data "register_pc" = true ->
  on_message v o ws (Some data) st
  = match v with
    | Legacy => register_pc_legacy o ws st
    | Reconnecting => register_pc o ws data st
    end.
Proof.
  intros Ht. unfold on_message.
  destruct data; try discriminate Ht. by rewrite Ht.
Qed.

Lemma on_message_join_room v o ws data st :
  type_is data "join_room" = true ->
  on_message v o ws (Some data) st
  = match join_room ws data st with
    | Some result => result
    | None => protocol_error ws st
    end.
Proof.
  intros Ht. unfold on_message.
  destruct data; try discriminate Ht.
  rewrite (type_is_unique _ _ "register_pc" Ht) by discriminate.
  by rewrite Ht.
Qed.

Lemma on_message_relay v o ws data st :
  type_is data "relay" = true ->
  on_message v o ws (Some data) st = relay ws data st.
Proof.
  intros Ht. unfold on_message.
  destruct data; try discriminate Ht.
  rewrite (type_is_unique _ _ "register_pc" Ht) by discriminate.
  rewrite (type_is_unique _ _ "join_room" Ht) by discriminate.
  by rewrite Ht.
Qed.

Lemma reclaim_target_intro data st k tok r :
  get data "reconnectionToken" = Some (JStr tok) ->
  get data "requestedRoomCode" = Some (JStr k) ->
  tok <> "" -> k <> "" ->
  reconnectionTokens st !! tok = Some k ->
  rooms st !! k = Some r ->
  reclaim_target data st = Some (k, tok, r).
Proof.
  intros Ht Hk Htok Hcode Hidx Hroom. unfold reclaim_target.
  rewrite Ht, Hk. simpl.
  apply String.eqb_neq in Htok, Hcode. rewrite Htok, Hcode. simpl.
  rewrite Hidx, String.eqb_refl, Hroom. reflexivity.
Qed.

Lemma is_open_closing st s :
  is_open (with_readyState <[s := CLOSING]> st) s = false.
Proof. unfold is_open. simpl. by rewrite lookup_insert_eq. Qed.

(** In every state the reconnection-aware server can reach, a
    [register_pc] frame whose [reconnectionToken] is mapped by the token
    index to a live room with the code given in [requestedRoomCode]
    reclaims that room: the room stays under its code with the sender as
    [pc] and the secondary, token and creation time as they were; the
    timer whose handle the room holds, if any, is cleared; the previous
    [pc] socket is closed if it was open; no other room and no token-index
    entry changes; and the sender receives [registered] with the same code
    and token and [isReconnection: true].  Timers whose handle the room
    no longer holds are not touched: see
    [reclaim_leaves_stale_cleanup_timer]. *)
Theorem register_pc_reclaims_room
  (o : oracle) (st : world) (ws : socket) (data : json)
  (token k : string) (r : room) :
  reachable Reconnecting st ->
  type_is data "register_pc" = true ->
  get data "reconnectionToken" = Some (JStr token) ->
  get data "requestedRoomCode" = Some (JStr k) ->
  reconnectionTokens st !! token = Some k ->
  rooms st !! k = Some r ->
  exists st' reply r',
    on_message Reconnecting o ws (Some data) st
    = (st', match pc r with
            | Some old => if is_open st old then [Close old] else []
            | None => []
            end ++ [Send ws reply])
    /\ get reply "type" = Some (JStr "registered")
    /\ get reply "roomCode" = Some (JStr k)
    /\ get reply "reconnectionToken" = Some (JStr token)
    /\ get reply "isReconnection" = Some (JBool true)
    /\ rooms st' !! k = Some r'
    /\ pc r' = Some ws /\ mobile r' = mobile r
    /\ reconnectionToken r' = reconnectionToken r
    /\ createdAt r' = createdAt r /\ cleanupTimeout r' = None
    /\ (forall k', k' <> k -> rooms st' !! k' = rooms st !! k')
    /\ reconnectionTokens st' = reconnectionTokens st
    /\ timers st'
       = match cleanupTimeout r with
         | Some id => delete id (timers st)
         | None => timers st
         end
    /\ (forall old, pc r = Some old -> is_open st old = true ->
                    is_open st' old = false)
    /\ session_of st' ws = Session (Some k) (Some Pc).
Proof.
  intros Hreach Htype Htok Hreq Hidx Hroom.
  pose proof (reachable_well_formed _ _ Hreach) as Hwf.
  assert (Hne_tok : token <> "") by exact (wf_tokens st Hwf _ _ Hidx).
  assert (Hne_k : k <> "")
    by exact (is_code_nonempty _ (wf_rooms st Hwf _ _ Hroom)).
  rewrite on_message_register_pc by exact Htype.
  unfold register_pc.
  rewrite (reclaim_target_intro data st k token r) by assumption.
  unfold close_if_open, clearTimeout, session_of.
  destruct (cleanupTimeout r) as [id|];
    (destruct (pc r) as [old|] eqn:Hpc;
     [destruct (is_open _ old) eqn:Hopen|]);
    do 3 eexists; (split; [unfold is_open in *; simpl in *;
                           rewrite ?Hopen; reflexivity|]);
    unfold_world; unfold is_open in *; simpl in *;
    rewrite ?lookup_insert_eq;
    split_and!; try done.
  all: try (intros k' Hk'; by rewrite lookup_insert_ne).
  all: try (intros old' [= <-] Hold; by rewrite ?lookup_insert_eq).
  all: try (intros old' [= <-] Hold; congruence).
Qed.

Lemma register_pc_reclaims_room_witness :
  exists st' reply r',
    on_message Reconnecting oracle_B 3
      (Some (frame_reconnect "k3j90" "AAAAAA")) (paired Reconnecting)
    = (st', [Close 1; Send 3 reply])
    /\ get reply "isReconnection" = Some (JBool true)
    /\ rooms st' !! "AAAAAA" = Some r'
    /\ pc r' = Some 3 /\ mobile r' = Some 2
    /\ reconnectionToken r' = Some "k3j90".
Proof.
  destruct (register_pc_reclaims_room oracle_B (paired Reconnecting) 3
              (frame_reconnect "k3j90" "AAAAAA") "k3j90" "AAAAAA"
              (Room (Some 1) (Some 2) (Some "k3j90") (Some 0%Z) None))
    as (st' & reply & r' & Hrun & _ & _ & _ & Hflag & Hr' & Hpc & Hmob
        & Htok & _).
  - apply reachable_run; [apply reachable_init | vm_compute; reflexivity].
  - reflexivity.
  - reflexivity.
  - reflexivity.
  - vm_compute. reflexivity.
  - vm_compute. reflexivity.
  - exists st', reply, r'. split; [exact Hrun|]. split; [exact Hflag|].
    split; [exact Hr'|]. split; [exact Hpc|]. split; [exact Hmob|].
    exact Htok.
Defined.

(** ** Joining a room *)

Lemma bound_to_functional (st : world) k d s s' :
  bound_to st k d s -> bound_to st k d s' -> s = s'.
Proof. intros (r & Hr & Hs) (r' & Hr' & Hs'). congruence. Qed.

Lemma join_room_found ws data st supplied r :
  get data "roomCode" = Some (JStr supplied) ->
  rooms st !! toUpperCase supplied = Some r ->
  exists st1 closed,
    close_if_open (mobile r) st = (st1, closed)
    /\ join_room ws data st
       = Some (bind_session ws (toUpperCase supplied) Mobile
                 (with_rooms
                    <[toUpperCase supplied := set_mobile (Some ws) r]> st1),
               closed ++ [Send ws msg_connected]
                 ++ send_if_open (pc r) msg_mobile_connected
                      (bind_session ws (toUpperCase supplied) Mobile
                         (with_rooms
                            <[toUpperCase supplied := set_mobile (Some ws) r]>
                            st1))).
Proof.
  intros Hcode Hroom. unfold join_room. rewrite Hcode, Hroom.
  destruct (close_if_open (mobile r) st) as [st1 closed].
  by exists st1, closed.
Qed.

(** A room has one [pc] slot and one [mobile] slot.  A [join_room] frame
    that finds its room binds the sender as the room's secondary in place
    of whatever socket held the slot: the previous secondary is closed if
    it was open, the sender is the secondary of the room when the handler
    is done, the primary and every other room are as before, and the
    sender is told [connected].  What the close event of the replaced
    secondary does afterwards is [replaced_close_unbinds_last_joiner]. *)
Theorem join_room_last_wins (v : server) (st : world) :
  (forall k d s s', bound_to st k d s -> bound_to st k d s' -> s = s')
  /\ forall (o : oracle) (ws : socket) (data : json) (supplied : string)
            (r : room),
      type_is data "join_room" = true ->
      get data "roomCode" = Some (JStr supplied) ->
      rooms st !! toUpperCase supplied = Some r ->
      exists st' fx,
        on_message v o ws (Some data) st = (st', fx)
        /\ rooms st' !! toUpperCase supplied = Some (set_mobile (Some ws) r)
        /\ (forall k', k' <> toUpperCase supplied ->
                       rooms st' !! k' = rooms st !! k')
        /\ (forall old, mobile r = Some old -> is_open st old = true ->
                        In (Close old) fx /\ is_open st' old = false)
        /\ (forall s, bound_to st' (toUpperCase supplied) Mobile s <-> s = ws)
        /\ (forall s, bound_to st' (toUpperCase supplied) Pc s
                      <-> bound_to st (toUpperCase supplied) Pc s)
        /\ (forall k d s s',
              bound_to st' k d s -> bound_to st' k d s' -> s = s')
        /\ In (Send ws msg_connected) fx.
Proof.
  split; [apply bound_to_functional|].
  intros o ws data supplied r Htype Hcode Hroom.
  rewrite on_message_join_room by exact Htype.
  destruct (join_room_found ws data st supplied r Hcode Hroom)
    as (st1 & closed & Hclose & ->).
  do 2 eexists. split; [reflexivity|].
  assert (Hrooms1 : rooms st1 = rooms st).
  { unfold close_if_open in Hclose. repeat case_match; by simplify_eq. }
  unfold_world. rewrite Hrooms1.
  split_and!.
  - by rewrite lookup_insert_eq.
  - intros k' Hk'. by rewrite lookup_insert_ne.
  - intros old Hold Hopen. rewrite Hold, Hopen in Hclose.
    injection Hclose as <- <-. split; [simpl; tauto|].
    unfold is_open. simpl. by rewrite lookup_insert_eq.
  - intros s. unfold bound_to. simpl. rewrite lookup_insert_eq. split.
    + intros (r' & [= <-] & Hs). simpl in Hs. congruence.
    + intros ->. eexists. split; reflexivity.
  - intros s. unfold bound_to. simpl. rewrite lookup_insert_eq, Hroom. split.
    + intros (r' & [= <-] & Hs). eauto.
    + intros (r' & [= <-] & Hs). eauto.
  - intros k d s s'. apply bound_to_functional.
  - apply in_or_app. right. simpl. tauto.
Qed.

Lemma join_room_last_wins_witness :
  exists st' fx,
    on_message Reconnecting oracle_B 3 (Some (frame_join "AAAaaa"))
      (paired Reconnecting) = (st', fx)
    /\ bound_to st' "AAAAAA" Mobile 3
    /\ In (Close 2) fx
    /\ is_open st' 2 = false
    /\ bound_to st' "AAAAAA" Pc 1.
Proof.
  destruct (proj2 (join_room_last_wins Reconnecting (paired Reconnecting))
              oracle_B 3 (frame_join "AAAaaa") "AAAaaa"
              (Room (Some 1) (Some 2) (Some "k3j90") (Some 0%Z) None))
    as (st' & fx & Hrun & _ & _ & Hclose & Hmobile & Hpc & _ & _).
  - reflexivity.
  - reflexivity.
  - vm_compute. reflexivity.
  - exists st', fx. split; [exact Hrun|].
    split; [by apply Hmobile|].
    destruct (Hclose 2) as [Hin Hclosed]; [reflexivity | reflexivity |].
    split; [exact Hin|]. split; [exact Hclosed|].
    apply Hpc. eexists. split; [vm_compute; reflexivity | reflexivity].
Defined.

(** The close event of a replaced secondary runs the same close handler:
    it empties the [mobile] slot although the slot holds the socket that
    joined last. *)
Example replaced_secondary_close_clears_slot :
  rooms (run Reconnecting
           [Message 3 oracle_B (Some (frame_join "AAAAAA")); CloseEvent 2]
           (paired Reconnecting)).1 !! "AAAAAA"
  = Some (Room (Some 1) None (Some "k3j90") (Some 0%Z) None).
Proof. vm_compute. reflexivity. Qed.

(** C3, at the input where the code departs from it.  The last join
    does not stay the winner.  In the paired room a second mobile,
    socket 3, joins: the handler closes socket 2 and puts socket 3 in the
    [mobile] slot.  Until the close event of socket 2 arrives, a [relay]
    frame of socket 2 is still forwarded to the PC, so two connections
    act as the room's secondary.  The close event of socket 2 then sets
    the [mobile] slot to [null] although the slot holds socket 3, and
    tells the PC [mobile_disconnected]: socket 3 is open and its
    variables name the room, but the room has no secondary, and what the
    PC relays is dropped.  Both servers. *)
Theorem replaced_close_unbinds_last_joiner (v : server) :
  all_enabled v
    [Message 3 oracle_A (Some (frame_join "AAAAAA"));
     Message 2 oracle_A (Some (frame_relay (JStr "old")));
     CloseEvent 2;
     Message 1 oracle_A (Some (frame_relay (JStr "to mobile")))]
    (paired v)
  = true
  /\ (step v (Message 3 oracle_A (Some (frame_join "AAAAAA"))) (paired v)).2
     = [Close 2; Send 3 msg_connected; Send 1 msg_mobile_connected]
  /\ (exists r, rooms (rejoined v) !! "AAAAAA" = Some r
                /\ pc r = Some 1 /\ mobile r = Some 3)
  /\ is_open (rejoined v) 2 = false
  /\ (exists delivered,
        step v (Message 2 oracle_A (Some (frame_relay (JStr "old"))))
          (rejoined v)
        = (rejoined v, [Send 1 delivered])
        /\ get delivered "type" = Some (JStr "data")
        /\ get delivered "payload" = Some (JStr "old"))
  /\ (step v (CloseEvent 2) (rejoined v)).2 = [Send 1 msg_mobile_disconnected]
  /\ (exists r, rooms (step v (CloseEvent 2) (rejoined v)).1 !! "AAAAAA"
                = Some r
                /\ pc r = Some 1 /\ mobile r = None)
  /\ is_open (step v (CloseEvent 2) (rejoined v)).1 3 = true
  /\ sessions (step v (CloseEvent 2) (rejoined v)).1 !! 3
     = Some (Session (Some "AAAAAA") (Some Mobile))
  /\ (step v (Message 1 oracle_A (Some (frame_relay (JStr "to mobile"))))
        (step v (CloseEvent 2) (rejoined v)).1).2
     = [].
Proof.
  destruct v; split_and!; try (vm_compute; reflexivity);
    eexists; (split; [vm_compute; reflexivity|]); split; reflexivity.
Qed.



Lemma reachable_paired v : reachable v (paired v).
Proof.
  apply reachable_run; [apply reachable_init|].
  destruct v; vm_compute; reflexivity.
Qed.

(** ** Relaying *)

(** C4, as the code has it.  In every reachable state, a [relay] frame
    from a connection whose handler variables name a code [k] and a role
    [d] leaves the state as it is and does exactly this.  When [k] is a
    room of the registry and the slot of the opposite role holds an open
    socket, that socket is sent one [data] message with the payload that
    the broker parsed; the peer reads it as [JSON.stringify] wrote it,
    which is the same value when no number of the payload is an infinity.
    When the slot is empty or its socket is not open, nothing is sent to
    anyone, the sender included.  When the registry has no room [k] any
    more, the sender is answered with the error [Not in a room]. *)
Theorem relay_forwards_or_drops
  (v : server) (o : oracle) (st : world) (ws : socket) (data : json)
  (k : string) (d : device) :
  reachable v st ->
  type_is data "relay" = true ->
  sessions st !! ws = Some (Session (Some k) (Some d)) ->
  exists fx,
    on_message v o ws (Some data) st = (st, fx)
    /\ (forall r peer,
          rooms st !! k = Some r -> slot (opposite d) r = Some peer ->
          is_open st peer = true ->
          exists delivered,
            fx = [Send peer delivered]
            /\ get delivered "type" = Some (JStr "data")
            /\ get delivered "payload" = get data "payload"
            /\ get (serialised delivered) "payload"
               = option_map serialised (get data "payload")
            /\ (forall p, get data "payload" = Some p -> finite p = true ->
                          get (serialised delivered) "payload" = Some p))
    /\ (forall r,
          rooms st !! k = Some r ->
          (forall peer, slot (opposite d) r = Some peer ->
                        is_open st peer = false) ->
          fx = [])
    /\ (rooms st !! k = None ->
        exists reply,
          fx = [Send ws reply]
          /\ get reply "type" = Some (JStr "error")
          /\ get reply "message" = Some (JStr "Not in a room")).
Proof.
  intros Hreach Htype Hsess.
  pose proof (reachable_well_formed _ _ Hreach) as Hwf.
  rewrite on_message_relay by exact Htype.
  unfold relay, session_of. rewrite Hsess. cbn [default from_option id].
  cbn [currentRoom deviceType live_room].
  destruct (rooms st !! k) as [r|] eqn:Hroom.
  - assert (Hk : k <> "")
      by exact (is_code_nonempty _ (wf_rooms st Hwf _ _ Hroom)).
    apply String.eqb_neq in Hk. rewrite Hk.
    exists (send_if_open (slot (opposite d) r)
              (msg_data (get data "payload")) st).
    split; [by destruct d|].
    split_and!.
    + intros r' peer [= <-] Hslot Hopen.
      exists (msg_data (get data "payload")).
      unfold send_if_open. rewrite Hslot, Hopen.
      assert (Ht : get (msg_data (get data "payload")) "type"
                   = Some (JStr "data"))
        by (by destruct (get data "payload")).
      assert (Hp : get (msg_data (get data "payload")) "payload"
                   = get data "payload")
        by (by destruct (get data "payload")).
      split_and!; try done.
      * by rewrite get_serialised, Hp.
      * intros p Hpay Hfin. rewrite get_serialised, Hp, Hpay. simpl.
        by rewrite serialised_finite.
    + intros r' [= <-] Hclosed. unfold send_if_open.
      destruct (slot (opposite d) r) as [peer|]; [|reflexivity].
      by rewrite (Hclosed peer).
    + discriminate.
  - exists [Send ws (msg_error "Not in a room")].
    split; [by destruct (String.eqb k "")|].
    split_and!; try discriminate.
    intros _. eexists. split; [reflexivity|]. split; reflexivity.
Qed.

Lemma relay_forwards_or_drops_witness :
  (exists delivered,
     on_message Reconnecting oracle_A 1
       (Some (frame_relay (JArr [JStr "X"; JNum (Finite (1 # 10))])))
       (paired Reconnecting)
     = (paired Reconnecting, [Send 2 delivered])
     /\ get delivered "type" = Some (JStr "data")
     /\ get (serialised delivered) "payload"
        = Some (JArr [JStr "X"; JNum (Finite (1 # 10))]))
  /\ on_message Reconnecting oracle_A 1 (Some (frame_relay (JStr "X")))
       (run Reconnecting [CloseEvent 2] (paired Reconnecting)).1
     = ((run Reconnecting [CloseEvent 2] (paired Reconnecting)).1, [])
  /\ (exists reply,
        on_message Legacy oracle_A 2 (Some (frame_relay (JStr "X")))
          (step Legacy (CloseEvent 1) (paired Legacy)).1
        = ((step Legacy (CloseEvent 1) (paired Legacy)).1, [Send 2 reply])
        /\ get reply "message" = Some (JStr "Not in a room"))
  /\ (exists delivered,
        on_message Reconnecting oracle_A 2
          (Some (frame_relay (JArr [JNum (Infinity true)])))
          (paired Reconnecting)
        = (paired Reconnecting, [Send 1 delivered])
        /\ get (serialised delivered) "payload" = Some (JArr [JNull])).
Proof.
  split; [|split; [|split]].
  4: {
    destruct (relay_forwards_or_drops Reconnecting oracle_A
                (paired Reconnecting) 2
                (frame_relay (JArr [JNum (Infinity true)])) "AAAAAA" Mobile)
      as (fx & Hrun & Hfwd & _ & _);
      [apply reachable_paired | reflexivity | vm_compute; reflexivity |].
    destruct (Hfwd (Room (Some 1) (Some 2) (Some "k3j90") (Some 0%Z) None) 1)
      as (delivered & -> & _ & _ & Hread & _);
      [vm_compute; reflexivity | reflexivity | vm_compute; reflexivity |].
    exists delivered. split; [exact Hrun | exact Hread]. }
  - destruct (relay_forwards_or_drops Reconnecting oracle_A
                (paired Reconnecting) 1
                (frame_relay (JArr [JStr "X"; JNum (Finite (1 # 10))]))
                "AAAAAA" Pc)
      as (fx & Hrun & Hfwd & _ & _).
    + apply reachable_run; [apply reachable_init | vm_compute; reflexivity].
    + reflexivity.
    + vm_compute. reflexivity.
    + destruct (Hfwd (Room (Some 1) (Some 2) (Some "k3j90") (Some 0%Z) None)
                  2)
        as (delivered & -> & Htype & _ & _ & Hsame);
        [vm_compute; reflexivity | reflexivity | vm_compute; reflexivity |].
      exists delivered. split; [exact Hrun|]. split; [exact Htype|].
      apply Hsame; reflexivity.
  - destruct (relay_forwards_or_drops Reconnecting oracle_A
                (run Reconnecting [CloseEvent 2] (paired Reconnecting)).1
                1 (frame_relay (JStr "X")) "AAAAAA" Pc)
      as (fx & Hrun & _ & Hdrop & _).
    + apply reachable_run;
        [apply reachable_paired | vm_compute; reflexivity].
    + reflexivity.
    + vm_compute. reflexivity.
    + rewrite Hrun. f_equal.
      apply (Hdrop (Room (Some 1) None (Some "k3j90") (Some 0%Z) None));
        [vm_compute; reflexivity | intros peer; discriminate].
  - destruct (relay_forwards_or_drops Legacy oracle_A
                (step Legacy (CloseEvent 1) (paired Legacy)).1
                2 (frame_relay (JStr "X")) "AAAAAA" Mobile)
      as (fx & Hrun & _ & _ & Hgone).
    + apply (reachable_step Legacy (paired Legacy) (CloseEvent 1));
        [apply reachable_paired | vm_compute; reflexivity].
    + reflexivity.
    + vm_compute. reflexivity.
    + destruct Hgone as (reply & -> & _ & Hmsg); [vm_compute; reflexivity|].
      exists reply. split; [exact Hrun | exact Hmsg].
Defined.

(** C4 as stated fails in two ways.  A number beyond the range of a
    double, such as [1e400], is parsed as an infinity and written back as
    [null], so the peer does not read the payload that was sent (and
    [9007199254740993] is parsed, and passed on, as [9007199254740992]).
    And in the first server a mobile whose PC has closed still has its
    room in its variables, but the room is gone: its [relay] frame is not
    dropped in silence, it is answered with an error. *)
Lemma relay_payload_not_as_sent :
  JSON_parse_number (inject_Z (10 ^ 400)) = Infinity false
  /\ (exists delivered,
        on_message Reconnecting oracle_A 1
          (Some (frame_relay (JNum (JSON_parse_number (inject_Z (10 ^ 400))))))
          (paired Reconnecting)
        = (paired Reconnecting, [Send 2 delivered])
        /\ get (serialised delivered) "payload" = Some JNull)
  /\ JSON_parse_number (inject_Z 9007199254740993)
     = Finite (inject_Z 9007199254740992)
  /\ sessions (step Legacy (CloseEvent 1) (paired Legacy)).1 !! 2
     = Some (Session (Some "AAAAAA") (Some Mobile))
  /\ is_open (step Legacy (CloseEvent 1) (paired Legacy)).1 2 = true
  /\ on_message Legacy oracle_A 2 (Some (frame_relay (JStr "X")))
       (step Legacy (CloseEvent 1) (paired Legacy)).1
     = ((step Legacy (CloseEvent 1) (paired Legacy)).1,
        [Send 2 (msg_error "Not in a room")]).
Proof.
  split_and!; try (vm_compute; reflexivity).
  eexists. split; vm_compute; reflexivity.
Qed.


(** ** Frames the handler rejects *)

(** A frame that parses to something other than [null] and whose [type] is
    none of the three the handler knows is passed over in silence. *)
Lemma unknown_type_ignored v o st ws data :
  data <> JNull ->
  type_is data "register_pc" = false ->
  type_is data "join_room" = false ->
  type_is data "relay" = false ->
  on_message v o ws (Some data) st = (st, []).
Proof.
  intros Hnull H1 H2 H3. unfold on_message.
  destruct data; try congruence; by rewrite H1, H2, H3.
Qed.

(** C8, as the code has it.  A frame that cannot be parsed, and likewise
    a frame that parses to [null] or a [join_room] frame without a string
    [roomCode], makes the handler's [try] block throw: the [catch] block
    sends an [error] message that reads [Invalid message format] to the
    sender and to nobody else, no socket is closed, and the whole state
    of the broker (registry, token index, sessions, ready states, timers)
    is what it was.  A frame that parses to anything else without a
    [type] that the handler knows is passed over: the state is what it
    was and nothing is sent, no error either. *)
Theorem malformed_frame_rejected
  (v : server) (o : oracle) (st : world) (ws : socket)
  (message : option json) :
  (malformed message ->
   exists reply,
     on_message v o ws message st = (st, [Send ws reply])
     /\ get reply "type" = Some (JStr "error")
     /\ get reply "message" = Some (JStr "Invalid message format"))
  /\ (unrecognised message = true -> on_message v o ws message st = (st, [])).
Proof.
  split.
  - intros Hbad. exists (msg_error "Invalid message format").
    split; [|split; reflexivity].
    destruct Hbad as [| |data Htype Hcode]; try reflexivity.
    rewrite on_message_join_room by exact Htype.
    unfold join_room.
    destruct (get data "roomCode") as [[| | |s| |]|]; try reflexivity.
    by destruct (Hcode s).
  - destruct message as [data|]; [|discriminate].
    intros Hun.
    assert (Hnull : data <> JNull) by (intros ->; discriminate).
    assert (Hor : type_is data "register_pc" || type_is data "join_room"
                  || type_is data "relay" = false).
    { unfold unrecognised in Hun.
      destruct data; try congruence; by apply negb_true_iff in Hun. }
    apply orb_false_iff in Hor as [Hor Hrelay].
    apply orb_false_iff in Hor as [Hreg Hjoin].
    by apply unknown_type_ignored.
Qed.

Lemma malformed_frame_rejected_witness :
  (exists reply,
     on_message Reconnecting oracle_A 3
       (Some (JObj [("type", JStr "join_room");
                    ("roomCode", JNum (Finite 123456))]))
       (paired Reconnecting)
     = (paired Reconnecting, [Send 3 reply])
     /\ get reply "type" = Some (JStr "error")
     /\ get reply "message" = Some (JStr "Invalid message format"))
  /\ on_message Reconnecting oracle_A 3
       (Some (JObj [("type", JStr "ping")])) (paired Reconnecting)
     = (paired Reconnecting, []).
Proof.
  split.
  - apply (proj1 (malformed_frame_rejected Reconnecting oracle_A
                    (paired Reconnecting) 3 _)).
    apply malformed_join; [reflexivity | intros s; discriminate].
  - apply (proj2 (malformed_frame_rejected Reconnecting oracle_A
                    (paired Reconnecting) 3 _)).
    reflexivity.
Defined.

(** C8 as stated fails: the frames [42], [{}] and [{"type": 5}] and
    the string ["join_room"] are no envelopes of the protocol, yet the
    broker sends nothing in answer to them. *)
Lemma malformed_frame_without_error :
  on_message Reconnecting oracle_A 3 (Some (JNum (Finite 42)))
    (paired Reconnecting)
  = (paired Reconnecting, [])
  /\ on_message Reconnecting oracle_A 3 (Some (JObj [])) (paired Reconnecting)
     = (paired Reconnecting, [])
  /\ on_message Reconnecting oracle_A 3
       (Some (JObj [("type", JNum (Finite 5))])) (paired Reconnecting)
     = (paired Reconnecting, [])
  /\ on_message Legacy oracle_A 3 (Some (JStr "join_room")) (paired Legacy)
     = (paired Legacy, []).
Proof. vm_compute. repeat split; reflexivity. Qed.

(** ** Letter case of the code in [join_room] *)







(** ** Registering without a token *)

(** C7, as the code has it.  A [register_pc] frame without a
    [reconnectionToken] stores a new room, with the sender as [pc] and no
    secondary, under the code that [generateRoomCode] returns, binds the
    sender to it and answers [registered] with that code.  The code is
    not compared with the registry and generation is not repeated; when
    the code is not that of a live room, the new room is the only one
    under it and every live room is kept as it was. *)
Theorem register_pc_fresh_room
  (v : server) (o : oracle) (st : world) (ws : socket) (data : json) :
  type_is data "register_pc" = true ->
  get data "reconnectionToken" = None ->
  oracle_ok o = true ->
  exists st' fx r' msg,
    on_message v o ws (Some data) st = (st', fx)
    /\ is_code (generateRoomCode (random o))
    /\ rooms st' = <[generateRoomCode (random o) := r']> (rooms st)
    /\ pc r' = Some ws /\ mobile r' = None /\ cleanupTimeout r' = None
    /\ session_of st' ws
       = Session (Some (generateRoomCode (random o))) (Some Pc)
    /\ fx = [Send ws msg]
    /\ get msg "type" = Some (JStr "registered")
    /\ get msg "roomCode" = Some (JStr (generateRoomCode (random o)))
    /\ (rooms st !! generateRoomCode (random o) = None ->
        forall k r, rooms st !! k = Some r ->
                    k <> generateRoomCode (random o)
                    /\ rooms st' !! k = Some r).
Proof.
  intros Htype Htok Hok.
  rewrite on_message_register_pc by exact Htype.
  assert (Hnone : reclaim_target data st = None).
  { unfold reclaim_target. by rewrite Htok. }
  pose proof (generateRoomCode_is_code o Hok) as Hcode.
  destruct v; [unfold register_pc_legacy | unfold register_pc; rewrite Hnone];
    do 4 eexists; (split; [reflexivity|]);
    unfold session_of; unfold_world; rewrite ?lookup_insert_eq;
    split_and!; try reflexivity; try exact Hcode.
  all: intros Hfree k r Hk;
    assert (Hne : k <> generateRoomCode (random o)) by congruence;
    split; [exact Hne | by rewrite lookup_insert_ne].
Qed.

Lemma register_pc_fresh_room_witness :
  exists st' fx r' msg,
    on_message Reconnecting oracle_B 3 (Some frame_register)
      (paired Reconnecting) = (st', fx)
    /\ rooms st' = <["BBBBBB" := r']> (rooms (paired Reconnecting))
    /\ pc r' = Some 3 /\ mobile r' = None
    /\ fx = [Send 3 msg]
    /\ get msg "roomCode" = Some (JStr "BBBBBB")
    /\ rooms st' !! "AAAAAA" = rooms (paired Reconnecting) !! "AAAAAA".
Proof.
  destruct (register_pc_fresh_room Reconnecting oracle_B (paired Reconnecting)
              3 frame_register)
    as (st' & fx & r' & msg & Hrun & _ & Hrooms & Hpc & Hmob & _ & _
        & Hfx & _ & Hmsg & Hkeep).
  - reflexivity.
  - reflexivity.
  - reflexivity.
  - exists st', fx, r', msg.
    split_and!; try assumption.
    destruct (Hkeep ltac:(vm_compute; reflexivity) "AAAAAA"
                (Room (Some 1) (Some 2) (Some "k3j90") (Some 0%Z) None))
      as [_ Hsame]; [vm_compute; reflexivity|].
    rewrite Hsame. vm_compute. reflexivity.
Defined.

(** C7 as stated fails: the code that the generator returns is stored
    without a look at the registry.  Here socket 3 registers without a
    token while room [AAAAAA] is live with socket 1 as [pc] and socket 2
    as [mobile]; the generator returns [AAAAAA] again and the live room is
    replaced by a new one, in both servers. *)
Lemma register_pc_overwrites_live_room :
  get frame_register "reconnectionToken" = None
  /\ oracle_ok oracle_A2 = true
  /\ rooms (paired Reconnecting) !! "AAAAAA"
     = Some (Room (Some 1) (Some 2) (Some "k3j90") (Some 0%Z) None)
  /\ rooms (on_message Reconnecting oracle_A2 3 (Some frame_register)
              (paired Reconnecting)).1 !! "AAAAAA"
     = Some (Room (Some 3) None (Some "m4q80") (Some 0%Z) None)
  /\ rooms (paired Legacy) !! "AAAAAA"
     = Some (Room (Some 1) (Some 2) None None None)
  /\ rooms (on_message Legacy oracle_A2 3 (Some frame_register)
              (paired Legacy)).1 !! "AAAAAA"
     = Some (Room (Some 3) None None None None).
Proof. vm_compute. repeat split; reflexivity. Qed.

(** ** Which sockets the rooms reference *)

Lemma refs_from_same bound st st' :
  rooms st' = rooms st -> refs_from bound st st'.
Proof. intros Heq k r' s Hk Hs. rewrite Heq in Hk. left. eauto. Qed.

Lemma close_if_open_rooms slot0 st :
  rooms (close_if_open slot0 st).1 = rooms st.
Proof.
  unfold close_if_open.
  destruct slot0 as [old|]; [destruct (is_open st old)|]; reflexivity.
Qed.

(** Storing under [k] a room whose sockets are those of the old room at
    [k] or the bound socket. *)
Lemma refs_from_insert ws k r1 st st' :
  rooms st' = <[k := r1]> (rooms st) ->
  (forall s, refs r1 s ->
             s = ws \/ exists r, rooms st !! k = Some r /\ refs r s) ->
  refs_from (Some (ws, k)) st st'.
Proof.
  intros Heq Hr1 k' r' s Hk' Hs. rewrite Heq in Hk'.
  destruct (decide (k = k')) as [<-|Hne].
  - rewrite lookup_insert_eq in Hk'. injection Hk' as <-.
    destruct (Hr1 s Hs) as [->|Hold]; [by right | by left].
  - rewrite lookup_insert_ne in Hk' by exact Hne. left. eauto.
Qed.

Lemma refs_from_delete bound k st st' :
  rooms st' = delete k (rooms st) -> refs_from bound st st'.
Proof.
  intros Heq k' r' s Hk' Hs. rewrite Heq in Hk'.
  apply lookup_delete_Some in Hk' as [_ Hk']. left. eauto.
Qed.

Lemma refs_from_register_pc_legacy o ws st :
  refs_from (Some (ws, generateRoomCode (random o))) st
    (register_pc_legacy o ws st).1.
Proof.
  apply (refs_from_insert _ _ (Room (Some ws) None None None None));
    [reflexivity|].
  intros s [[= <-]|[=]]. by left.
Qed.

Lemma refs_from_register_pc o ws data st :
  refs_from
    (Some (ws,
           match reclaim_target data st with
           | Some (roomCode, _, _) => roomCode
           | None => generateRoomCode (random o)
           end))
    st (register_pc o ws data st).1.
Proof.
  unfold register_pc.
  destruct (reclaim_target data st) as [[[k tok] r]|] eqn:Hrt.
  - apply reclaim_target_Some in Hrt as (_ & _ & _ & _ & _ & Hroom).
    pose proof (close_if_open_rooms (pc r)
                  (clearTimeout (cleanupTimeout r) st)) as Hrooms.
    destruct (close_if_open _ _) as [st2 closed]. simpl in Hrooms.
    assert (Hrooms2 : rooms st2 = rooms st).
    { rewrite Hrooms. by destruct (cleanupTimeout r). }
    eapply refs_from_insert; [simpl; by rewrite Hrooms2|].
    intros s [[= <-]|Hs]; [by left|].
    right. exists r. split; [exact Hroom | by right].
  - eapply refs_from_insert; [reflexivity|].
    intros s [[= <-]|[=]]. by left.
Qed.

Lemma refs_from_join_room ws data st supplied r :
  get data "roomCode" = Some (JStr supplied) ->
  rooms st !! toUpperCase supplied = Some r ->
  forall result,
    join_room ws data st = Some result ->
    refs_from (Some (ws, toUpperCase supplied)) st result.1.
Proof.
  intros Hcode Hroom result.
  destruct (join_room_found ws data st supplied r Hcode Hroom)
    as (st1 & closed & Hclose & ->).
  intros [= <-].
  pose proof (close_if_open_rooms (mobile r) st) as Hrooms.
  rewrite Hclose in Hrooms. simpl in Hrooms.
  eapply refs_from_insert; [simpl; by rewrite Hrooms|].
  intros s [Hs|[= <-]]; [|by left].
  right. exists r. split; [exact Hroom | by left].
Qed.

Lemma relay_state ws data st : (relay ws data st).1 = st.
Proof.
  unfold relay.
  destruct (live_room _ _); [destruct (deviceType _) as [[|]|]|]; reflexivity.
Qed.

Lemma refs_from_on_message v o ws message st :
  refs_from (binding v (Message ws o message) st) st
    (on_message v o ws message st).1.
Proof.
  unfold binding, target_room, on_message, protocol_error.
  destruct message as [data|]; [|by apply refs_from_same].
  assert (Hgen :
    refs_from
      match
        (if type_is data "register_pc" then
           match v with
           | Legacy => Some (generateRoomCode (random o))
           | Reconnecting =>
               match reclaim_target data st with
               | Some (roomCode, _, _) => Some roomCode
               | None => Some (generateRoomCode (random o))
               end
           end
         else if type_is data "join_room" then
           match get data "roomCode" with
           | Some (JStr supplied) =>
               match rooms st !! toUpperCase supplied with
               | Some _ => Some (toUpperCase supplied)
               | None => None
               end
           | _ => None
           end
         else None)
      with
      | Some k => Some (ws, k)
      | None => None
      end st
      (if type_is data "register_pc" then
         match v with
         | Legacy => register_pc_legacy o ws st
         | Reconnecting => register_pc o ws data st
         end
       else if type_is data "join_room" then
         match join_room ws data st with
         | Some result => result
         | None => (st, [Send ws (msg_error "Invalid message format")])
         end
       else if type_is data "relay" then relay ws data st
       else (st, [])).1).
  { destruct (type_is data "register_pc").
    { destruct v; [apply refs_from_register_pc_legacy|].
      pose proof (refs_from_register_pc o ws data st) as Hreg.
      by destruct (reclaim_target data st) as [[[k tok] r]|]. }
    destruct (type_is data "join_room").
    { destruct (get data "roomCode") as [[| | |supplied| |]|] eqn:Hcode;
        try (unfold join_room; rewrite Hcode; by apply refs_from_same).
      destruct (rooms st !! toUpperCase supplied) as [r|] eqn:Hroom.
      - destruct (join_room ws data st) as [result|] eqn:Hj;
          [by eapply refs_from_join_room|].
        destruct (join_room_found ws data st supplied r Hcode Hroom)
          as (st1 & closed & _ & Hsome).
        congruence.
      - unfold join_room. rewrite Hcode, Hroom. by apply refs_from_same. }
    destruct (type_is data "relay");
      apply refs_from_same; [by rewrite relay_state | done]. }
  destruct data; try exact Hgen; by apply refs_from_same.
Qed.

Lemma refs_from_on_close v ws st :
  refs_from None st (on_close v ws st).1.
Proof.
  unfold on_close.
  destruct (currentRoom (session_of st ws)) as [k|];
    [|by apply refs_from_same].
  destruct (live_room st (Some k)) as [r|] eqn:Hlive;
    [|by apply refs_from_same].
  assert (Hroom : rooms st !! k = Some r).
  { simpl in Hlive. destruct (String.eqb k ""); [discriminate | exact Hlive]. }
  destruct (deviceType _) as [[|]|]; [destruct v | |];
    try (by apply refs_from_same).
  - by eapply refs_from_delete.
  - intros k' r' s Hk' Hs. simpl in Hk'.
    destruct (decide (k = k')) as [<-|Hne].
    + rewrite lookup_insert_eq in Hk'. injection Hk' as <-. left. eauto.
    + rewrite lookup_insert_ne in Hk' by exact Hne. left. eauto.
  - intros k' r' s Hk' Hs. simpl in Hk'.
    destruct (decide (k = k')) as [<-|Hne].
    + rewrite lookup_insert_eq in Hk'. injection Hk' as <-.
      destruct Hs as [Hs|[=]]. left. exists r. split; [exact Hroom | by left].
    + rewrite lookup_insert_ne in Hk' by exact Hne. left. eauto.
Qed.

Lemma refs_from_cleanup ws st : refs_from None st (cleanup ws st).
Proof.
  unfold cleanup.
  destruct (currentRoom _) as [k|]; [|by apply refs_from_same].
  destruct (rooms st !! k) as [r|]; [|by apply refs_from_same].
  apply (refs_from_delete _ k).
  by destruct (reconnectionToken r) as [tok|]; [destruct (String.eqb tok "")|].
Qed.

Lemma refs_from_step v ev st :
  refs_from (binding v ev st) st (step v ev st).1.
Proof.
  destruct ev as [ws|ws o message|ws|id|ms].
  - by apply refs_from_same.
  - apply refs_from_on_message.
  - intros k r' s Hk Hs.
    destruct (refs_from_on_close v ws (with_readyState <[ws := CLOSED]> st)
                k r' s Hk Hs) as [Hold|[=]].
    by left.
  - simpl. destruct (timers st !! id) as [t|]; [|by apply refs_from_same].
    intros k r' s Hk Hs.
    destruct (refs_from_cleanup (owner t) (with_timers (delete id) st)
                k r' s Hk Hs) as [Hold|[=]].
    by left.
  - by apply refs_from_same.
Qed.

(** C6, as the code has it.  If no socket is referenced by two rooms, this
    is still so after any event (a registration, a join, any other frame,
    a close, a cleanup, the passing of time), provided that a frame which
    binds its sender to a room comes from a socket that no other room
    references.  The handlers never take a socket out of the room that
    references it when the socket registers or joins elsewhere. *)
Theorem exclusive_preserved (v : server) (st : world) (ev : event) :
  exclusive st ->
  (forall ws k,
     binding v ev st = Some (ws, k) ->
     forall k' r, rooms st !! k' = Some r -> refs r ws -> k' = k) ->
  exclusive (step v ev st).1.
Proof.
  intros Hex Hfresh.
  pose proof (refs_from_step v ev st) as Hfrom.
  intros k1 k2 r1 r2 s Hk1 Hk2 Hs1 Hs2.
  destruct (Hfrom k1 r1 s Hk1 Hs1) as [(r1' & Hr1 & Hs1')|Hb1];
    destruct (Hfrom k2 r2 s Hk2 Hs2) as [(r2' & Hr2 & Hs2')|Hb2].
  - by eapply Hex.
  - by eapply Hfresh.
  - symmetry. by eapply Hfresh.
  - congruence.
Qed.

Lemma rooms_paired v :
  rooms (paired v)
  = {["AAAAAA" :=
        match v with
        | Legacy => Room (Some 1) (Some 2) None None None
        | Reconnecting =>
            Room (Some 1) (Some 2) (Some "k3j90") (Some 0%Z) None
        end]}.
Proof. destruct v; vm_compute; reflexivity. Qed.

Lemma exclusive_paired v : exclusive (paired v).
Proof.
  intros k1 k2 r1 r2 s. rewrite rooms_paired.
  intros [<- _]%lookup_singleton_Some [<- _]%lookup_singleton_Some _ _.
  reflexivity.
Qed.

Lemma unreferenced_paired v : unreferenced (paired v) 3.
Proof.
  intros k r. rewrite rooms_paired.
  intros [_ <-]%lookup_singleton_Some [H|H]; destruct v; discriminate H.
Qed.

Lemma exclusive_preserved_witness :
  exclusive
    (step Reconnecting (Message 3 oracle_B (Some frame_register))
       (paired Reconnecting)).1
  /\ exclusive
       (step Legacy (Message 2 oracle_B (Some (frame_join "aaaaaa")))
          (paired Legacy)).1.
Proof.
  split.
  - apply (exclusive_preserved Reconnecting (paired Reconnecting)
             (Message 3 oracle_B (Some frame_register))).
    + apply exclusive_paired.
    + intros ws k [= <- <-] k' r Hk' Hrefs.
      destruct (unreferenced_paired Reconnecting k' r Hk' Hrefs).
  - apply (exclusive_preserved Legacy (paired Legacy)
             (Message 2 oracle_B (Some (frame_join "aaaaaa")))).
    + apply exclusive_paired.
    + intros ws k Hbind k' r. rewrite rooms_paired.
      intros [<- _]%lookup_singleton_Some _.
      vm_compute in Hbind. by injection Hbind as _ <-.
Defined.

(** C6 as stated fails: a socket that registers twice is the [pc] of both
    of its rooms, and a socket that joins a second room stays the [mobile]
    of the first.  Both traces are runs of the broker, in either version. *)
Lemma socket_referenced_by_two_rooms :
  (all_enabled Legacy double_register_trace init = true
   /\ ~ exclusive (run Legacy double_register_trace init).1)
  /\ (all_enabled Reconnecting double_register_trace init = true
      /\ ~ exclusive (run Reconnecting double_register_trace init).1)
  /\ (all_enabled Legacy double_join_trace init = true
      /\ ~ exclusive (run Legacy double_join_trace init).1)
  /\ (all_enabled Reconnecting double_join_trace init = true
      /\ ~ exclusive (run Reconnecting double_join_trace init).1).
Proof.
  split_and!; try (vm_compute; reflexivity); intros Hex;
    (assert (Heq : "AAAAAA" = "BBBBBB"); [|discriminate Heq]).
  - apply (Hex "AAAAAA" "BBBBBB"
             (Room (Some 1) None None None None)
             (Room (Some 1) None None None None) 1);
      try (vm_compute; reflexivity); left; reflexivity.
  - apply (Hex "AAAAAA" "BBBBBB"
             (Room (Some 1) None (Some "k3j90") (Some 0%Z) None)
             (Room (Some 1) None (Some "x7p20") (Some 0%Z) None) 1);
      try (vm_compute; reflexivity); left; reflexivity.
  - apply (Hex "AAAAAA" "BBBBBB"
             (Room (Some 1) (Some 3) None None None)
             (Room (Some 2) (Some 3) None None None) 3);
      try (vm_compute; reflexivity); right; reflexivity.
  - apply (Hex "AAAAAA" "BBBBBB"
             (Room (Some 1) (Some 3) (Some "k3j90") (Some 0%Z) None)
             (Room (Some 2) (Some 3) (Some "x7p20") (Some 0%Z) None) 3);
      try (vm_compute; reflexivity); right; reflexivity.
Qed.

(** ** When a PC disconnects *)

(** What the close handler of the reconnection-aware server does for a
    connection registered as the PC of a live room: the secondary, if
    open, is told [pc_disconnected]; the room and the token index stay; a
    cleanup timer due one hour later is stored in the room. *)
Lemma on_close_pc_schedules_cleanup st ws k r :
  sessions st !! ws = Some (Session (Some k) (Some Pc)) ->
  k <> "" ->
  rooms st !! k = Some r ->
  step Reconnecting (CloseEvent ws) st
  = (World (<[k := set_cleanupTimeout (Some (next_timer st)) r]> (rooms st))
           (reconnectionTokens st) (sessions st)
           (<[ws := CLOSED]> (readyState st))
           (<[next_timer st := Timer (clock st + 3600000) ws]> (timers st))
           (S (next_timer st)) (clock st),
     send_if_open (mobile r) msg_pc_disconnected
       (with_readyState <[ws := CLOSED]> st)).
Proof.
  intros Hsess Hk Hroom. simpl. unfold on_close, session_of. simpl.
  rewrite Hsess. simpl.
  apply String.eqb_neq in Hk. rewrite Hk, Hroom. reflexivity.
Qed.

(** The first server deletes the room in the same handler run. *)
Lemma on_close_pc_legacy_deletes st ws k r :
  sessions st !! ws = Some (Session (Some k) (Some Pc)) ->
  k <> "" ->
  rooms st !! k = Some r ->
  rooms (step Legacy (CloseEvent ws) st).1 !! k = None.
Proof.
  intros Hsess Hk Hroom. simpl. unfold on_close, session_of. simpl.
  rewrite Hsess. simpl.
  apply String.eqb_neq in Hk. rewrite Hk, Hroom. simpl.
  apply lookup_delete_eq.
Qed.

(** A timer does not fire before it is due. *)
Lemma timer_fires_when_due st id t :
  timers st !! id = Some t -> enabled st (TimerFired id) = true ->
  (due t <= clock st)%Z.
Proof. simpl. intros ->. apply Z.leb_le. Qed.

(** When the callback runs and the room is still there, the room and the
    entry of its token leave the registry and the index together. *)
Lemma cleanup_deletes_room_and_token st ws k r token :
  currentRoom (session_of st ws) = Some k ->
  rooms st !! k = Some r ->
  reconnectionToken r = Some token ->
  token <> "" ->
  rooms (cleanup ws st) !! k = None
  /\ reconnectionTokens (cleanup ws st) !! token = None.
Proof.
  intros Hsess Hroom Htok Hne. unfold cleanup.
  rewrite Hsess, Hroom, Htok.
  apply String.eqb_neq in Hne. rewrite Hne. simpl.
  split; apply lookup_delete_eq.
Qed.

(** On the reconnection-aware server a room leaves the registry only when
    a cleanup timer fires. *)
Lemma room_deleted_only_by_timer st ev k :
  is_Some (rooms st !! k) ->
  rooms (step Reconnecting ev st).1 !! k = None ->
  exists id, ev = TimerFired id.
Proof.
  intros Hlive Hgone.
  destruct ev as [ws|ws o message|ws|id|ms]; [| | |by exists id|];
    exfalso; apply eq_None_not_Some in Hgone; apply Hgone; clear Hgone.
  - exact Hlive.
  - simpl. unfold on_message, protocol_error.
    destruct message as [data|]; [|exact Hlive].
    assert (Hreg : is_Some (rooms (register_pc o ws data st).1 !! k)).
    { unfold register_pc.
      destruct (reclaim_target data st) as [[[k0 tok] r]|].
      - pose proof (close_if_open_rooms (pc r)
                      (clearTimeout (cleanupTimeout r) st)) as Hrooms.
        destruct (close_if_open _ _) as [st2 closed]. simpl in *.
        apply lookup_insert_is_Some'. right. rewrite Hrooms.
        by destruct (cleanupTimeout r).
      - simpl. apply lookup_insert_is_Some'. by right. }
    assert (Hjoin :
      is_Some (rooms match join_room ws data st with
                     | Some result => result
                     | None =>
                         (st, [Send ws (msg_error "Invalid message format")])
                     end.1 !! k)).
    { unfold join_room.
      destruct (get data "roomCode") as [[| | |supplied| |]|]; try exact Hlive.
      destruct (rooms st !! toUpperCase supplied) as [r|]; [|exact Hlive].
      pose proof (close_if_open_rooms (mobile r) st) as Hrooms.
      destruct (close_if_open _ _) as [st1 closed]. simpl in *.
      apply lookup_insert_is_Some'. right. by rewrite Hrooms. }
    destruct data; try exact Hlive;
      (destruct (type_is _ "register_pc"); [exact Hreg|]);
      (destruct (type_is _ "join_room"); [exact Hjoin|]);
      (destruct (type_is _ "relay"); [by rewrite relay_state | exact Hlive]).
  - simpl. unfold on_close.
    destruct (currentRoom _) as [k0|]; [|exact Hlive].
    destruct (live_room _ _) as [r|]; [|exact Hlive].
    destruct (deviceType _) as [[|]|]; try exact Hlive;
      simpl; apply lookup_insert_is_Some'; by right.
  - exact Hlive.
Qed.

(** The scenario of the specification on the reconnection-aware server:
    what each socket is sent, and the state at the end. *)
Example scenario_reconnect :
  all_enabled Reconnecting scenario_trace init = true
  /\ (run Reconnecting scenario_trace init).2
     = [Send 1 (msg_registered "AAAAAA" "k3j90" false);
        Send 2 msg_connected;
        Send 1 msg_mobile_connected;
        Send 2 (msg_data (Some (JStr "X")));
        Send 2 msg_pc_disconnected;
        Send 3 (msg_registered "AAAAAA" "k3j90" true);
        Send 2 (msg_data (Some (JStr "Y")))]
  /\ rooms (run Reconnecting scenario_trace init).1 !! "AAAAAA"
     = Some (Room (Some 3) (Some 2) (Some "k3j90") (Some 0%Z) None)
  /\ timers (run Reconnecting scenario_trace init).1 = ∅.
Proof. vm_compute. repeat split; reflexivity. Qed.

(** C2, at the input where the code departs from it.  Socket 3 has
    reclaimed room [AAAAAA] with the token while socket 1, the previous
    PC, was still open; the close event of socket 1 has since set a
    cleanup timer although the room has a PC.  When socket 3, the bound
    and open PC, closes at 3599000 ms, the room is kept, the secondary is
    told [pc_disconnected] and a timer due 3600000 ms later is set; but
    the older timer is due 1000 ms later, and when it fires the room and
    its token-index entry are deleted. *)
Theorem stale_cleanup_deletes_room_early :
  all_enabled Reconnecting
    (reconnected_trace ++ [CloseEvent 3] ++ early_cleanup_trace) init
  = true
  /\ rooms reconnected !! "AAAAAA"
     = Some (Room (Some 3) (Some 2) (Some "k3j90") (Some 0%Z) (Some 0))
  /\ sessions reconnected !! 3 = Some (Session (Some "AAAAAA") (Some Pc))
  /\ is_open reconnected 3 = true
  /\ clock reconnected = 3599000%Z
  /\ (step Reconnecting (CloseEvent 3) reconnected).2
     = [Send 2 msg_pc_disconnected]
  /\ rooms (step Reconnecting (CloseEvent 3) reconnected).1 !! "AAAAAA"
     = Some (Room (Some 3) (Some 2) (Some "k3j90") (Some 0%Z) (Some 1))
  /\ timers (step Reconnecting (CloseEvent 3) reconnected).1 !! 1
     = Some (Timer (3599000 + grace_period) 3)
  /\ reconnectionTokens (step Reconnecting (CloseEvent 3) reconnected).1
       !! "k3j90"
     = Some "AAAAAA"
  /\ clock (run Reconnecting early_cleanup_trace
              (step Reconnecting (CloseEvent 3) reconnected).1).1
     = (3599000 + 1000)%Z
  /\ rooms (run Reconnecting early_cleanup_trace
              (step Reconnecting (CloseEvent 3) reconnected).1).1 !! "AAAAAA"
     = None
  /\ reconnectionTokens
       (run Reconnecting early_cleanup_trace
          (step Reconnecting (CloseEvent 3) reconnected).1).1 !! "k3j90"
     = None.
Proof. vm_compute. repeat split; reflexivity. Qed.

(** C1, at the input where the code departs from it.  The reclaim
    cancels the cleanup timer whose handle the room holds and no other.
    Socket 1 registers room [AAAAAA] and socket 2 joins; socket 3
    reconnects with the token while socket 1 is open, so the handler
    closes socket 1; the close event of socket 1 sets timer 0 on the
    room; a minute later socket 3 closes, which sets timer 1 and
    overwrites the handle of timer 0.  When socket 4 now reconnects with
    the token it is answered [registered] with [isReconnection: true] and
    becomes the room's [pc], timer 1 is cleared, and timer 0 stays
    pending.  It fires 59 minutes later and deletes the room and its
    token while socket 4 is bound and open: the next [relay] frame of
    socket 4 is answered [Not in a room]. *)
Theorem reclaim_leaves_stale_cleanup_timer :
  all_enabled Reconnecting
    (stale_timer_trace
     ++ [Message 4 oracle_B (Some (frame_reconnect "k3j90" "AAAAAA"))]
     ++ stale_timer_fires) init
  = true
  /\ rooms twice_orphaned !! "AAAAAA"
     = Some (Room (Some 3) (Some 2) (Some "k3j90") (Some 0%Z) (Some 1))
  /\ timers twice_orphaned !! 0 = Some (Timer 3600000 1)
  /\ timers twice_orphaned !! 1 = Some (Timer 3660000 3)
  /\ (exists reply,
        (step Reconnecting
           (Message 4 oracle_B (Some (frame_reconnect "k3j90" "AAAAAA")))
           twice_orphaned).2
        = [Send 4 reply]
        /\ get reply "type" = Some (JStr "registered")
        /\ get reply "roomCode" = Some (JStr "AAAAAA")
        /\ get reply "reconnectionToken" = Some (JStr "k3j90")
        /\ get reply "isReconnection" = Some (JBool true))
  /\ rooms reclaimed_once_more !! "AAAAAA"
     = Some (Room (Some 4) (Some 2) (Some "k3j90") (Some 0%Z) None)
  /\ timers reclaimed_once_more !! 1 = None
  /\ timers reclaimed_once_more !! 0 = Some (Timer 3600000 1)
  /\ clock (run Reconnecting stale_timer_fires reclaimed_once_more).1
     = 3600000%Z
  /\ is_open (run Reconnecting stale_timer_fires reclaimed_once_more).1 4
     = true
  /\ sessions (run Reconnecting stale_timer_fires reclaimed_once_more).1 !! 4
     = Some (Session (Some "AAAAAA") (Some Pc))
  /\ rooms (run Reconnecting stale_timer_fires reclaimed_once_more).1
       !! "AAAAAA"
     = None
  /\ reconnectionTokens
       (run Reconnecting stale_timer_fires reclaimed_once_more).1 !! "k3j90"
     = None
  /\ (on_message Reconnecting oracle_B 4 (Some (frame_relay (JStr "X")))
        (run Reconnecting stale_timer_fires reclaimed_once_more).1).2
     = [Send 4 (msg_error "Not in a room")].
Proof.
  split_and!; try (vm_compute; reflexivity).
  eexists. split; [vm_compute; reflexivity|].
  repeat split; reflexivity.
Qed.

(** * Further properties of the broker and its client *)

(** ** Connections without a room, and connections that close *)

Lemma roomless_live_room st ws :
  roomless st ws -> live_room st (currentRoom (session_of st ws)) = None.
Proof.
  unfold roomless, live_room. intros H.
  destruct (currentRoom (session_of st ws)) as [k|]; [|reflexivity].
  destruct (String.eqb k ""); [reflexivity | by apply H].
Qed.

(** X1.  A [relay] frame from a connection that is in no room (it never
    registered or joined, or the registry has no room under its
    [currentRoom] any more) is answered with [error: Not in a room] on
    that connection; nothing else is sent and the state is unchanged. *)
Theorem relay_without_room
  (v : server) (o : oracle) (st : world) (ws : socket) (data : json) :
  type_is data "relay" = true ->
  roomless st ws ->
  on_message v o ws (Some data) st
  = (st, [Send ws (msg_error "Not in a room")]).
Proof.
  intros Htype Hroomless.
  rewrite on_message_relay by exact Htype.
  unfold relay. by rewrite roomless_live_room.
Qed.

Lemma relay_without_room_witness :
  on_message Legacy oracle_A 3 (Some (frame_relay (JStr "X"))) (paired Legacy)
  = (paired Legacy, [Send 3 (msg_error "Not in a room")]).
Proof.
  apply (relay_without_room Legacy oracle_A (paired Legacy) 3).
  - reflexivity.
  - intros k Hk. vm_compute in Hk. discriminate Hk.
Defined.




(** X3.  The close of a connection that is in no room (it never
    registered or joined, or its room has left the registry) sends
    nothing and changes nothing but the ready state of its socket. *)
Theorem close_without_room (v : server) (st : world) (ws : socket) :
  roomless st ws ->
  step v (CloseEvent ws) st = (with_readyState <[ws := CLOSED]> st, []).
Proof.
  intros Hroomless. simpl. unfold on_close.
  pose proof (roomless_live_room _ _ Hroomless) as Hlive.
  change (session_of (with_readyState <[ws:=CLOSED]> st) ws)
    with (session_of st ws).
  destruct (currentRoom (session_of st ws)) as [k|]; [|reflexivity].
  change (live_room (with_readyState <[ws:=CLOSED]> st) (Some k))
    with (live_room st (Some k)).
  by rewrite Hlive.
Qed.

Lemma close_without_room_witness :
  step Reconnecting (CloseEvent 3) (paired Reconnecting)
  = (with_readyState <[3 := CLOSED]> (paired Reconnecting), []).
Proof.
  apply (close_without_room Reconnecting (paired Reconnecting) 3).
  intros k Hk. vm_compute in Hk. discriminate Hk.
Defined.



(** ** How one event changes the registry *)

Lemma rooms_change_register_pc o ws data st :
  rooms_change Reconnecting
    match reclaim_target data st with
    | Some _ => None
    | None =>
        Some (generateRoomCode (random o),
              Room (Some ws) None
                (Some (generateReconnectionToken o (clock st)))
                (Some (clock st)) None)
    end false st (register_pc o ws data st).1.
Proof.
  unfold register_pc.
  destruct (reclaim_target data st) as [[[k tok] r]|] eqn:Hrt.
  - apply reclaim_target_Some in Hrt as (_ & _ & _ & _ & _ & Hroom).
    pose proof (close_if_open_rooms (pc r)
                  (clearTimeout (cleanupTimeout r) st)) as Hrooms.
    destruct (close_if_open _ _) as [st2 closed]. simpl in Hrooms.
    assert (Hrooms2 : rooms st2 = rooms st).
    { rewrite Hrooms. by destruct (cleanupTimeout r). }
    eapply (change_update _ _ _ _ _ k r);
      [exact Hroom | | simpl; by rewrite Hrooms2].
    repeat split; simpl; eauto; discriminate.
  - by eapply change_new.
Qed.

Lemma rooms_change_join_room v new ws data st :
  rooms_change v new false st
    match join_room ws data st with
    | Some result => result
    | None => protocol_error ws st
    end.1.
Proof.
  unfold join_room, protocol_error.
  destruct (get data "roomCode") as [[| | |supplied| |]|];
    try by apply change_none.
  destruct (rooms st !! toUpperCase supplied) as [r|] eqn:Hroom;
    [|by apply change_none].
  pose proof (close_if_open_rooms (mobile r) st) as Hrooms.
  destruct (close_if_open _ _) as [st1 closed]. simpl in Hrooms.
  eapply (change_update _ _ _ _ _ _ r);
    [exact Hroom | | simpl; by rewrite Hrooms].
  by repeat split.
Qed.

Lemma rooms_change_on_message v o ws message st :
  rooms_change v (registered_room v (Message ws o message) st) false st
    (on_message v o ws message st).1.
Proof.
  unfold registered_room, on_message.
  destruct message as [data|]; [|by apply change_none].
  assert (Hgen :
    rooms_change v
      (if type_is data "register_pc" then
         match v with
         | Legacy =>
             Some (generateRoomCode (random o),
                   Room (Some ws) None None None None)
         | Reconnecting =>
             match reclaim_target data st with
             | Some _ => None
             | None =>
                 Some (generateRoomCode (random o),
                       Room (Some ws) None
                         (Some (generateReconnectionToken o (clock st)))
                         (Some (clock st)) None)
             end
         end
       else None) false st
      (if type_is data "register_pc" then
         match v with
         | Legacy => register_pc_legacy o ws st
         | Reconnecting => register_pc o ws data st
         end
       else if type_is data "join_room" then
         match join_room ws data st with
         | Some result => result
         | None => protocol_error ws st
         end
       else if type_is data "relay" then relay ws data st
       else (st, [])).1).
  { destruct (type_is data "register_pc").
    { destruct v; [by eapply change_new | apply rooms_change_register_pc]. }
    destruct (type_is data "join_room"); [apply rooms_change_join_room|].
    destruct (type_is data "relay");
      apply change_none; [by rewrite relay_state | done]. }
  destruct data; try exact Hgen; by apply change_none.
Qed.

Lemma rooms_change_on_close v ws st :
  rooms_change v None (removes v (CloseEvent ws)) st (on_close v ws st).1.
Proof.
  unfold on_close.
  destruct (currentRoom (session_of st ws)) as [k|];
    [|by apply change_none].
  destruct (live_room st (Some k)) as [r|] eqn:Hlive;
    [|by apply change_none].
  assert (Hroom : rooms st !! k = Some r).
  { simpl in Hlive. destruct (String.eqb k ""); [discriminate | exact Hlive]. }
  destruct (deviceType _) as [[|]|]; [destruct v | |];
    try (by apply change_none).
  - by eapply change_delete.
  - eapply (change_update _ _ _ _ _ k r); [exact Hroom | | reflexivity].
    repeat split; simpl; eauto; discriminate.
  - eapply (change_update _ _ _ _ _ k r); [exact Hroom | | reflexivity].
    by repeat split.
Qed.

Lemma rooms_change_cleanup v ws st :
  rooms_change v None true st (cleanup ws st).
Proof.
  unfold cleanup.
  destruct (currentRoom _) as [k|]; [|by apply change_none].
  destruct (rooms st !! k) as [r|]; [|by apply change_none].
  apply (change_delete _ _ _ _ _ k); [reflexivity|].
  by destruct (reconnectionToken r) as [tok|]; [destruct (String.eqb tok "")|].
Qed.

Lemma rooms_change_rooms v new removing st0 st st' :
  rooms st0 = rooms st ->
  rooms_change v new removing st0 st' -> rooms_change v new removing st st'.
Proof.
  intros Heq [H|k r r1 Hr Hk H|k r1 Hn H|k Hrem H]; rewrite Heq in *.
  - by apply change_none.
  - by eapply change_update.
  - by eapply change_new.
  - by eapply change_delete.
Qed.

Lemma rooms_change_step v ev st :
  rooms_change v (registered_room v ev st) (removes v ev) st (step v ev st).1.
Proof.
  destruct ev as [ws|ws o message|ws|id|ms].
  - by apply change_none.
  - apply rooms_change_on_message.
  - apply (rooms_change_rooms _ _ _ (with_readyState <[ws := CLOSED]> st));
      [reflexivity | apply rooms_change_on_close].
  - simpl. destruct (timers st !! id) as [t|]; [|by apply change_none].
    apply (rooms_change_rooms _ _ _ (with_timers (delete id) st));
      [reflexivity | apply rooms_change_cleanup].
  - by apply change_none.
Qed.

Lemma kept_refl v r : kept v r r.
Proof. by repeat split. Qed.

(** Every room after a step is the room of the same code before it,
    updated in place, or the newly registered room. *)
Lemma rooms_change_lookup v new removing st st' k r' :
  rooms_change v new removing st st' ->
  rooms st' !! k = Some r' ->
  (exists r, rooms st !! k = Some r /\ kept v r r') \/ new = Some (k, r').
Proof.
  intros [H|k0 r r1 Hr Hk H|k0 r1 Hn H|k0 Hrem H] Hk'; rewrite H in Hk'.
  - left. eauto using kept_refl.
  - destruct (decide (k0 = k)) as [<-|Hne].
    + rewrite lookup_insert_eq in Hk'. injection Hk' as <-. left. eauto.
    + rewrite lookup_insert_ne in Hk' by exact Hne.
      left. eauto using kept_refl.
  - destruct (decide (k0 = k)) as [<-|Hne].
    + rewrite lookup_insert_eq in Hk'. injection Hk' as <-. by right.
    + rewrite lookup_insert_ne in Hk' by exact Hne.
      left. eauto using kept_refl.
  - apply lookup_delete_Some in Hk' as [_ Hk']. left. eauto using kept_refl.
Qed.

(** The first server leaves the token index and the timers alone. *)
Lemma legacy_step_tokens_timers ev st :
  timers st = ∅ ->
  reconnectionTokens (step Legacy ev st).1 = reconnectionTokens st
  /\ timers (step Legacy ev st).1 = ∅.
Proof.
  intros Hempty.
  destruct ev as [ws|ws o message|ws|id|ms]; simpl.
  - by split.
  - unfold on_message, protocol_error.
    destruct message as [data|]; [|by split].
    assert (Hjoin :
      forall result, join_room ws data st = Some result ->
        reconnectionTokens result.1 = reconnectionTokens st
        /\ timers result.1 = ∅).
    { unfold join_room.
      destruct (get data "roomCode") as [[| | |supplied| |]|];
        try discriminate.
      destruct (rooms st !! toUpperCase supplied) as [r|];
        [|by intros result [= <-]].
      unfold close_if_open.
      destruct (mobile r) as [old|]; [destruct (is_open st old)|];
        by intros result [= <-]. }
    destruct data; try (by split);
      (destruct (type_is _ "register_pc"); [by split|]);
      (destruct (type_is _ "join_room");
       [destruct (join_room _ _ _) as [result|] eqn:Hj;
        [by apply Hjoin | by split]|]);
      (destruct (type_is _ "relay"); [by rewrite relay_state | by split]).
  - unfold on_close.
    destruct (currentRoom _) as [k|]; [|by split].
    destruct (live_room _ _) as [r|]; [|by split].
    by destruct (deviceType _) as [[|]|].
  - by rewrite Hempty, lookup_empty.
  - by split.
Qed.

(** X5.  In every reachable state each room of the registry has a socket
    in its [pc] slot, so the [/rooms] listing reports [hasPc: true] for
    every room, also for a room whose PC has disconnected.  A room of the
    reconnection-aware server carries a non-empty token and a creation
    time; a room of the first server carries neither, and that server
    never has a token-index entry or a timer. *)
Theorem reachable_room_shape (v : server) (st : world) :
  reachable v st ->
  (forall k r,
     rooms st !! k = Some r ->
     is_Some (pc r)
     /\ get (room_entry k r) "hasPc" = Some (JBool true)
     /\ match v with
        | Legacy =>
            reconnectionToken r = None /\ createdAt r = None
            /\ cleanupTimeout r = None
        | Reconnecting =>
            (exists token, reconnectionToken r = Some token /\ token <> "")
            /\ is_Some (createdAt r)
        end)
  /\ (v = Legacy -> reconnectionTokens st = ∅ /\ timers st = ∅).
Proof.
  assert (Hentry : forall k r,
            is_Some (pc r) ->
            get (room_entry k r) "hasPc" = Some (JBool true)).
  { intros k r [p Hp]. simpl. by rewrite Hp. }
  induction 1 as [|st ev Hreach [IHrooms IHlegacy] Hen].
  - split; [intros k r Hk; simpl in Hk; by rewrite lookup_empty in Hk|].
    by intros _.
  - split.
    + intros k r' Hk.
      destruct (rooms_change_lookup _ _ _ _ _ k r' (rooms_change_step v ev st)
                  Hk)
        as [(r & Hr & Htok & Hat & Hpc & Hcl)|Hnew].
      * destruct (IHrooms k r Hr) as (Hp & _ & Hshape).
        split; [by apply Hpc|]. split; [by apply Hentry, Hpc|].
        rewrite Htok, Hat. destruct v; [|exact Hshape].
        by rewrite Hcl.
      * unfold registered_room in Hnew.
        destruct ev as [|ws o [data|]| | |]; try discriminate Hnew.
        destruct (type_is data "register_pc"); [|discriminate Hnew].
        destruct v.
        -- injection Hnew as <- <-. by repeat split.
        -- destruct (reclaim_target data st); [discriminate Hnew|].
           injection Hnew as <- <-. simpl.
           split; [done|]. split; [done|]. split; [|done].
           eexists. split; [reflexivity|].
           apply generateReconnectionToken_nonempty.
    + intros ->. destruct (IHlegacy eq_refl) as [Htok Htim].
      destruct (legacy_step_tokens_timers ev st Htim) as [Htok' Htim'].
      by rewrite Htok'.
Qed.

Lemma reachable_room_shape_witness :
  get (room_entry "AAAAAA"
         (Room (Some 1) (Some 2) (Some "k3j90") (Some 0%Z) (Some 0)))
    "hasPc"
  = Some (JBool true).
Proof.
  destruct (reachable_room_shape Reconnecting
              (run Reconnecting [CloseEvent 1] (paired Reconnecting)).1)
    as [Hrooms _].
  - apply reachable_run; [apply reachable_paired | vm_compute; reflexivity].
  - destruct (Hrooms "AAAAAA"
                (Room (Some 1) (Some 2) (Some "k3j90") (Some 0%Z) (Some 0)))
      as (_ & Hentry & _); [vm_compute; reflexivity | exact Hentry].
Defined.

(** X6.  A room that is in the registry before and after an event keeps
    its [reconnectionToken] and [createdAt], unless the event is a
    registration that stores a new room under the same code. *)
Theorem room_identity_stable
  (v : server) (ev : event) (st : world) (k : string) (r r' : room) :
  rooms st !! k = Some r ->
  rooms (step v ev st).1 !! k = Some r' ->
  (reconnectionToken r' = reconnectionToken r /\ createdAt r' = createdAt r)
  \/ registered_room v ev st = Some (k, r').
Proof.
  intros Hr Hr'.
  destruct (rooms_change_lookup _ _ _ _ _ k r' (rooms_change_step v ev st) Hr')
    as [(r0 & Hr0 & Htok & Hat & _)|Hnew]; [|by right].
  left. rewrite Hr in Hr0. injection Hr0 as <-. by split.
Qed.

Lemma room_identity_stable_witness :
  (reconnectionToken (Room (Some 3) (Some 2) (Some "k3j90") (Some 0%Z) None)
   = Some "k3j90"
   /\ createdAt (Room (Some 3) (Some 2) (Some "k3j90") (Some 0%Z) None)
      = Some 0%Z)
  \/ registered_room Reconnecting
       (Message 3 oracle_B (Some (frame_reconnect "k3j90" "AAAAAA")))
       (paired Reconnecting)
     = Some ("AAAAAA", Room (Some 3) (Some 2) (Some "k3j90") (Some 0%Z) None).
Proof.
  apply (room_identity_stable Reconnecting
           (Message 3 oracle_B (Some (frame_reconnect "k3j90" "AAAAAA")))
           (paired Reconnecting) "AAAAAA"
           (Room (Some 1) (Some 2) (Some "k3j90") (Some 0%Z) None)
           (Room (Some 3) (Some 2) (Some "k3j90") (Some 0%Z) None)).
  - vm_compute. reflexivity.
  - vm_compute. reflexivity.
Defined.

(** X7.  The codes of the registry, and with them the [activeRooms]
    count of [/health], change only in three ways.  An event that is
    neither a new registration, nor a cleanup timer, nor (in the first
    server) a close leaves the set of codes as it is: a join, a relay, a
    reclaiming registration, a malformed or unknown frame, a new
    connection.  A new registration stores exactly its room under the
    generated code.  A timer or close removes at most one room. *)
Theorem registry_keys_step (v : server) (ev : event) (st : world) :
  (registered_room v ev st = None -> removes v ev = false ->
   dom (rooms (step v ev st).1) = dom (rooms st)
   /\ forall uptime,
        get (health uptime (step v ev st).1) "activeRooms"
        = get (health uptime st) "activeRooms")
  /\ (forall k r, registered_room v ev st = Some (k, r) ->
                  rooms (step v ev st).1 = <[k := r]> (rooms st))
  /\ (removes v ev = true ->
      dom (rooms (step v ev st).1) = dom (rooms st)
      \/ exists k, rooms (step v ev st).1 = delete k (rooms st)).
Proof.
  pose proof (rooms_change_step v ev st) as Hchange.
  split_and!.
  - intros Hnone Hkeep.
    assert (Hdom : dom (rooms (step v ev st).1) = dom (rooms st)).
    { destruct Hchange as [H|k r r1 Hr Hk H|k r1 Hn H|k Hrem H].
      - by rewrite H.
      - rewrite H. by apply dom_insert_lookup_L.
      - congruence.
      - congruence. }
    split; [exact Hdom|].
    intros uptime. simpl.
    by rewrite <- !size_dom, Hdom.
  - intros k r Hnew.
    destruct ev as [|ws o [data|]| | |]; try discriminate Hnew.
    simpl in Hnew.
    change (step v (Message ws o (Some data)) st)
      with (on_message v o ws (Some data) st).
    destruct (type_is data "register_pc") eqn:Htype; [|discriminate Hnew].
    rewrite on_message_register_pc by exact Htype.
    destruct v.
    + by injection Hnew as <- <-.
    + unfold register_pc.
      destruct (reclaim_target _ st); [discriminate Hnew|].
      by injection Hnew as <- <-.
  - intros Hrem.
    destruct Hchange as [H|k r r1 Hr Hk H|k r1 Hn H|k _ H]; eauto.
    + left. by rewrite H.
    + left. rewrite H. by apply dom_insert_lookup_L.
    + destruct ev as [|ws o [data|]| | |]; destruct v; discriminate.
Qed.

Lemma registry_keys_step_witness :
  get (health 5
         (step Reconnecting (Message 3 oracle_B (Some (frame_join "aaaaaa")))
            (paired Reconnecting)).1) "activeRooms"
  = get (health 5 (paired Reconnecting)) "activeRooms"
  /\ rooms (step Legacy (Message 3 oracle_B (Some frame_register))
              (paired Legacy)).1
     = <["BBBBBB" := Room (Some 3) None None None None]>
         (rooms (paired Legacy)).
Proof.
  split.
  - destruct (registry_keys_step Reconnecting
                (Message 3 oracle_B (Some (frame_join "aaaaaa")))
                (paired Reconnecting)) as [Hsame _].
    destruct Hsame as [_ Hhealth]; [reflexivity | reflexivity |].
    apply Hhealth.
  - destruct (registry_keys_step Legacy
                (Message 3 oracle_B (Some frame_register))
                (paired Legacy)) as (_ & Hnew & _).
    apply Hnew. reflexivity.
Defined.

(** ** Who is sent what *)

Lemma send_if_open_In slot0 msg st s m :
  In (Send s m) (send_if_open slot0 msg st) ->
  slot0 = Some s /\ m = msg /\ is_open st s = true.
Proof.
  unfold send_if_open.
  destruct slot0 as [p|]; [destruct (is_open st p) eqn:Hopen|];
    simpl; intros H; try destruct H as [[= <- <-]|[]]; try destruct H.
  done.
Qed.

Lemma send_if_open_not_Close slot0 msg st s :
  ~ In (Close s) (send_if_open slot0 msg st).
Proof.
  unfold send_if_open.
  destruct slot0 as [p|]; [destruct (is_open st p)|]; simpl;
    intuition discriminate.
Qed.

Lemma close_if_open_spec slot0 st :
  close_if_open slot0 st = (st, [])
  \/ exists old,
       slot0 = Some old /\ is_open st old = true
       /\ close_if_open slot0 st
          = (with_readyState <[old := CLOSING]> st, [Close old]).
Proof.
  unfold close_if_open.
  destruct slot0 as [old|]; [destruct (is_open st old) eqn:Hopen|].
  - right. by exists old.
  - by left.
  - by left.
Qed.


Lemma polite_silent sender st st' s : polite sender st (st', []) s.
Proof. split; [intros msg [] | intros []]. Qed.

Lemma polite_answer ws st st' msg s :
  polite (Some ws) st (st', [Send ws msg]) s.
Proof.
  split; [|by intros [|[]]].
  intros msg' [[= -> _]|[]]. by left.
Qed.

Lemma polite_notify sender slot0 msg st s :
  polite sender st (st, send_if_open slot0 msg st) s.
Proof.
  split.
  - intros m Hin. apply send_if_open_In in Hin as (_ & _ & Hopen). by right.
  - intros Hin. by apply send_if_open_not_Close in Hin.
Qed.

Lemma polite_register_pc o ws data st s :
  polite (Some ws) st (register_pc o ws data st) s.
Proof.
  unfold register_pc.
  destruct (reclaim_target data st) as [[[k tok] r]|];
    [|apply polite_answer].
  assert (Hopen : forall x,
            is_open (clearTimeout (cleanupTimeout r) st) x = is_open st x).
  { intros x. by destruct (cleanupTimeout r). }
  destruct (close_if_open_spec (pc r) (clearTimeout (cleanupTimeout r) st))
    as [->|(old & Hold & Hwas & ->)]; [apply polite_answer|].
  split; cbn [fst snd].
  - intros msg [|[[= -> _]|[]]]; [done | by left].
  - intros [[= ->]|[|[]]]; [|done].
    rewrite <- Hopen. split; [exact Hwas|].
    unfold is_open. simpl. by rewrite lookup_insert_eq.
Qed.

Lemma polite_join_room ws data st s :
  polite (Some ws) st
    match join_room ws data st with
    | Some result => result
    | None => protocol_error ws st
    end s.
Proof.
  unfold join_room, protocol_error.
  destruct (get data "roomCode") as [[| | |supplied| |]|];
    try apply polite_answer.
  destruct (rooms st !! toUpperCase supplied) as [r|];
    [|apply polite_answer].
  destruct (close_if_open_spec (mobile r) st)
    as [->|(old & Hold & Hwas & ->)]; split; cbn [fst snd].
  - intros msg [[= -> _]|Hin]; [by left|].
    apply send_if_open_In in Hin as (_ & _ & Hopen). by right.
  - intros [|Hin]; [done|]. by apply send_if_open_not_Close in Hin.
  - intros msg [|[[= -> _]|Hin]]; [done | by left |].
    apply send_if_open_In in Hin as (_ & _ & Hopen). by right.
  - intros [[= ->]|[|Hin]]; [|done|].
    + split; [exact Hwas|].
      unfold is_open. simpl. by rewrite lookup_insert_eq.
    + by apply send_if_open_not_Close in Hin.
Qed.

Lemma polite_relay ws data st s : polite (Some ws) st (relay ws data st) s.
Proof.
  unfold relay.
  destruct (live_room _ _) as [r|]; [|apply polite_answer].
  destruct (deviceType _) as [[|]|];
    [apply polite_notify | apply polite_notify | apply polite_silent].
Qed.

Lemma polite_on_message v o ws message st s :
  polite (Some ws) st (on_message v o ws message st) s.
Proof.
  unfold on_message.
  destruct message as [data|]; [|apply polite_answer].
  assert (Hrest :
    polite (Some ws) st
      (if type_is data "register_pc" then
         match v with
         | Legacy => register_pc_legacy o ws st
         | Reconnecting => register_pc o ws data st
         end
       else if type_is data "join_room" then
         match join_room ws data st with
         | Some result => result
         | None => protocol_error ws st
         end
       else if type_is data "relay" then relay ws data st
       else (st, [])) s).
  { destruct (type_is data "register_pc").
    { destruct v; [apply polite_answer | apply polite_register_pc]. }
    destruct (type_is data "join_room"); [apply polite_join_room|].
    destruct (type_is data "relay");
      [apply polite_relay | apply polite_silent]. }
  destruct data; try exact Hrest; apply polite_answer.
Qed.

Lemma polite_on_close v ws st s : polite None st (on_close v ws st) s.
Proof.
  unfold on_close.
  destruct (currentRoom _) as [k|]; [|apply polite_silent].
  destruct (live_room _ _) as [r|]; [|apply polite_silent].
  destruct (deviceType _) as [[|]|]; [destruct v| |];
    try apply polite_silent.
  all: split; cbn [fst snd];
    [intros msg Hin; apply send_if_open_In in Hin as (_ & _ & Hopen);
     by right
    |intros Hin; by apply send_if_open_not_Close in Hin].
Qed.

(** X8.  Whatever the event, a message that the broker sends goes to the
    sender of the frame being handled or to a socket that is open when the
    handler is done; and the broker closes a socket only if it was open,
    after which it is open no more. *)
Theorem effects_reach_open_sockets
  (v : server) (ev : event) (st : world) (s : socket) :
  (forall msg,
     In (Send s msg) (step v ev st).2 ->
     (exists o message, ev = Message s o message)
     \/ is_open (step v ev st).1 s = true)
  /\ (In (Close s) (step v ev st).2 ->
      is_open st s = true /\ is_open (step v ev st).1 s = false).
Proof.
  destruct ev as [ws|ws o message|ws|id|ms];
    try (split; [intros msg []|intros []]).
  - destruct (polite_on_message v o ws message st s) as [Hsend Hclose].
    split; [|exact Hclose].
    intros msg Hin. destruct (Hsend msg Hin) as [[= ->]|Hopen]; eauto.
  - destruct (polite_on_close v ws (with_readyState <[ws := CLOSED]> st) s)
      as [Hsend Hclose].
    split.
    + intros msg Hin. destruct (Hsend msg Hin) as [[=]|Hopen]. by right.
    + intros Hin. exfalso. simpl in Hin. unfold on_close in Hin.
      destruct (currentRoom _) as [k|]; [|destruct Hin].
      destruct (live_room _ _) as [r|]; [|destruct Hin].
      destruct (deviceType _) as [[|]|]; [destruct v| |];
        try destruct Hin; by apply send_if_open_not_Close in Hin.
  - simpl. destruct (timers st !! id);
      split; try (intros msg []); intros [].
Qed.

Lemma effects_reach_open_sockets_witness :
  is_open
    (step Reconnecting (Message 3 oracle_B (Some (frame_join "aaaaaa")))
       (paired Reconnecting)).1 1 = true
  /\ is_open (paired Reconnecting) 2 = true
  /\ is_open
       (step Reconnecting (Message 3 oracle_B (Some (frame_join "aaaaaa")))
          (paired Reconnecting)).1 2 = false.
Proof.
  destruct (effects_reach_open_sockets Reconnecting
              (Message 3 oracle_B (Some (frame_join "aaaaaa")))
              (paired Reconnecting) 1) as [Hsend _].
  destruct (effects_reach_open_sockets Reconnecting
              (Message 3 oracle_B (Some (frame_join "aaaaaa")))
              (paired Reconnecting) 2) as [_ Hclose].
  split.
  - destruct (Hsend msg_mobile_connected) as [(o & m & Heq)|Hopen].
    + vm_compute. tauto.
    + discriminate Heq.
    + exact Hopen.
  - apply Hclose. vm_compute. tauto.
Defined.

(** ** Registering with a token *)

Lemma reclaim_target_None data st :
  (forall token requested,
     get data "reconnectionToken" = Some (JStr token) ->
     get data "requestedRoomCode" = Some (JStr requested) ->
     reconnectionTokens st !! token = Some requested ->
     rooms st !! requested = None) ->
  reclaim_target data st = None.
Proof.
  intros Hbad. unfold reclaim_target.
  destruct (truthy _ && truthy _); [|reflexivity].
  destruct (get data "reconnectionToken") as [[| | |token| |]|];
    try reflexivity.
  destruct (get data "requestedRoomCode") as [[| | |requested| |]|];
    try reflexivity.
  destruct (reconnectionTokens st !! token) as [stored|] eqn:Hidx;
    [|reflexivity].
  destruct (String.eqb_spec stored requested) as [->|]; [|reflexivity].
  by rewrite (Hbad token requested eq_refl eq_refl Hidx).
Qed.

Lemma register_pc_new_room o st ws data :
  type_is data "register_pc" = true ->
  reclaim_target data st = None ->
  on_message Reconnecting o ws (Some data) st
  = (bind_session ws (generateRoomCode (random o)) Pc
       (with_tokens
          <[generateReconnectionToken o (clock st)
            := generateRoomCode (random o)]>
          (with_rooms
             <[generateRoomCode (random o)
               := Room (Some ws) None
                    (Some (generateReconnectionToken o (clock st)))
                    (Some (clock st)) None]>
             st)),
     [Send ws
        (msg_registered (generateRoomCode (random o))
           (generateReconnectionToken o (clock st)) false)]).
Proof.
  intros Htype Hnone.
  rewrite on_message_register_pc by exact Htype.
  unfold register_pc. by rewrite Hnone.
Qed.

(** Reads the answer and the state of a new registration off the pair
    that [register_pc_new_room] gives. *)
Ltac read_new_room :=
  unfold registers_new_room; cbn [fst snd];
  do 2 eexists; (split; [reflexivity|]);
  unfold_world; unfold session_of; simpl;
  rewrite !lookup_insert_eq;
  split_and!; try done;
  [ let k := fresh "k" in let Hk := fresh "Hk" in
    intros k Hk; by rewrite lookup_insert_ne
  | let t := fresh "t" in let Ht := fresh "Ht" in
    intros t Ht; by rewrite lookup_insert_ne ].

(** X11.  In the reconnection-aware server a [register_pc] frame whose
    token does not lead to a live room with the requested code (the token
    is not in the index, it is stored for another code, or the room is
    gone) is not rejected.  The sender alone is answered, with
    [registered], a newly generated code and token and
    [isReconnection: false]; a new room under that code holds the sender
    as [pc], nobody as [mobile] and the new token; the index maps the new
    token to the new code; and every other room, every other index entry,
    the timers and the ready states are as they were. *)
Theorem register_pc_unknown_token
  (o : oracle) (st : world) (ws : socket) (data : json) :
  type_is data "register_pc" = true ->
  (forall token requested,
     get data "reconnectionToken" = Some (JStr token) ->
     get data "requestedRoomCode" = Some (JStr requested) ->
     reconnectionTokens st !! token = Some requested ->
     rooms st !! requested = None) ->
  registers_new_room o ws st (on_message Reconnecting o ws (Some data) st).
Proof.
  intros Htype Hbad.
  rewrite (register_pc_new_room o st ws data Htype)
    by (by apply reclaim_target_None).
  read_new_room.
Qed.

Lemma register_pc_unknown_token_witness :
  (exists reply,
     (on_message Reconnecting oracle_B 3
        (Some (frame_reconnect "k3j90" "BBBBBB")) (paired Reconnecting)).2
     = [Send 3 reply]
     /\ get reply "roomCode" = Some (JStr "BBBBBB")
     /\ get reply "isReconnection" = Some (JBool false))
  /\ (exists reply,
        (on_message Reconnecting oracle_B 3
           (Some (frame_reconnect "zzzz" "AAAAAA")) (paired Reconnecting)).2
        = [Send 3 reply]
        /\ get reply "roomCode" = Some (JStr "BBBBBB")
        /\ get reply "isReconnection" = Some (JBool false)).
Proof.
  split.
  - destruct (register_pc_unknown_token oracle_B (paired Reconnecting) 3
                (frame_reconnect "k3j90" "BBBBBB"))
      as (reply & r & Hfx & _ & Hcode & _ & Hflag & _).
    + reflexivity.
    + intros token requested [= <-] [= <-] Hidx.
      vm_compute in Hidx. discriminate Hidx.
    + exists reply. split; [exact Hfx|]. split; [exact Hcode | exact Hflag].
  - destruct (register_pc_unknown_token oracle_B (paired Reconnecting) 3
                (frame_reconnect "zzzz" "AAAAAA"))
      as (reply & r & Hfx & _ & Hcode & _ & Hflag & _).
    + reflexivity.
    + intros token requested [= <-] [= <-] Hidx.
      vm_compute in Hidx. discriminate Hidx.
    + exists reply. split; [exact Hfx|]. split; [exact Hcode | exact Hflag].
Defined.

(** X12.  After the PC bound to a room has closed, a [register_pc] frame
    from another connection with the room's token and code takes the room
    over: the sender is the room's [pc], the room keeps its secondary,
    token and creation time and holds no timer handle, the cleanup timer
    that the close had set is no longer pending and cannot fire, every
    other room and the token index are unchanged, and the only effect is
    the answer [registered] with the room's code and token and
    [isReconnection: true]. *)
Theorem reclaim_after_close
  (o : oracle) (st : world) (ws ws' : socket) (data : json)
  (token k : string) (r : room) :
  reachable Reconnecting st ->
  sessions st !! ws = Some (Session (Some k) (Some Pc)) ->
  rooms st !! k = Some r ->
  pc r = Some ws ->
  reconnectionTokens st !! token = Some k ->
  type_is data "register_pc" = true ->
  get data "reconnectionToken" = Some (JStr token) ->
  get data "requestedRoomCode" = Some (JStr k) ->
  exists st' reply r',
    on_message Reconnecting o ws' (Some data)
      (step Reconnecting (CloseEvent ws) st).1 = (st', [Send ws' reply])
    /\ get reply "type" = Some (JStr "registered")
    /\ get reply "roomCode" = Some (JStr k)
    /\ get reply "reconnectionToken" = Some (JStr token)
    /\ get reply "isReconnection" = Some (JBool true)
    /\ rooms st' !! k = Some r'
    /\ pc r' = Some ws' /\ mobile r' = mobile r
    /\ reconnectionToken r' = reconnectionToken r
    /\ createdAt r' = createdAt r /\ cleanupTimeout r' = None
    /\ (forall k', k' <> k -> rooms st' !! k' = rooms st !! k')
    /\ timers st' !! next_timer st = None
    /\ enabled st' (TimerFired (next_timer st)) = false
    /\ reconnectionTokens st' = reconnectionTokens st
    /\ session_of st' ws' = Session (Some k) (Some Pc).
Proof.
  intros Hreach Hsess Hroom Hpc Hidx Htype Htok Hreq.
  pose proof (reachable_well_formed _ _ Hreach) as Hwf.
  assert (Hne_tok : token <> "") by exact (wf_tokens st Hwf _ _ Hidx).
  assert (Hne_k : k <> "")
    by exact (is_code_nonempty _ (wf_rooms st Hwf _ _ Hroom)).
  rewrite (on_close_pc_schedules_cleanup st ws k r Hsess Hne_k Hroom).
  cbn [fst].
  rewrite on_message_register_pc by exact Htype.
  unfold register_pc.
  erewrite reclaim_target_intro;
    [|exact Htok|exact Hreq|exact Hne_tok|exact Hne_k|exact Hidx
     |simpl; apply lookup_insert_eq].
  unfold close_if_open, is_open. simpl. rewrite Hpc. simpl.
  rewrite lookup_insert_eq.
  do 3 eexists. split; [reflexivity|].
  unfold session_of. simpl. rewrite !lookup_insert_eq.
  split_and!; try done.
  - intros k' Hk'. by rewrite !lookup_insert_ne.
  - apply lookup_delete_eq.
  - by rewrite lookup_delete_eq.
Qed.

Lemma reclaim_after_close_witness :
  exists st' reply,
    on_message Reconnecting oracle_B 3
      (Some (frame_reconnect "k3j90" "AAAAAA"))
      (step Reconnecting (CloseEvent 1) (paired Reconnecting)).1
    = (st', [Send 3 reply])
    /\ get reply "isReconnection" = Some (JBool true)
    /\ (exists r', rooms st' !! "AAAAAA" = Some r'
                   /\ pc r' = Some 3 /\ mobile r' = Some 2
                   /\ reconnectionToken r' = Some "k3j90"
                   /\ cleanupTimeout r' = None)
    /\ timers st' !! 0 = None.
Proof.
  destruct (reclaim_after_close oracle_B (paired Reconnecting) 1 3
              (frame_reconnect "k3j90" "AAAAAA") "k3j90" "AAAAAA"
              (Room (Some 1) (Some 2) (Some "k3j90") (Some 0%Z) None))
    as (st' & reply & r' & Hrun & _ & _ & _ & Hflag & Hr' & Hpc & Hmob
        & Htok & _ & Hclean & _ & Htimer & _).
  - apply reachable_paired.
  - vm_compute. reflexivity.
  - vm_compute. reflexivity.
  - reflexivity.
  - vm_compute. reflexivity.
  - reflexivity.
  - reflexivity.
  - reflexivity.
  - exists st', reply. split; [exact Hrun|]. split; [exact Hflag|].
    split; [|exact Htimer].
    exists r'. split; [exact Hr'|]. split; [exact Hpc|].
    split; [exact Hmob|]. split; [exact Htok | exact Hclean].
Defined.

(** ** What the handlers leave untouched *)








(** What the close handler does outside the registry: at most one timer
    is added, owned by the closing connection and due a grace period
    later. *)
Lemma on_close_frame v ws st :
  clock (on_close v ws st).1 = clock st
  /\ sessions (on_close v ws st).1 = sessions st
  /\ readyState (on_close v ws st).1 = readyState st
  /\ (timers (on_close v ws st).1 = timers st
      \/ (is_Some (currentRoom (session_of st ws))
          /\ timers (on_close v ws st).1
             = <[next_timer st := Timer (clock st + grace_period) ws]>
                 (timers st))).
Proof.
  unfold on_close.
  destruct (currentRoom (session_of st ws)) as [k|]; [|by repeat split; left].
  destruct (live_room _ _) as [r|]; [|by repeat split; left].
  destruct (deviceType _) as [[|]|]; [destruct v| |];
    repeat split; eauto.
Qed.

Lemma cleanup_frame ws st :
  clock (cleanup ws st) = clock st
  /\ sessions (cleanup ws st) = sessions st
  /\ readyState (cleanup ws st) = readyState st
  /\ timers (cleanup ws st) = timers st
  /\ forall k, currentRoom (session_of st ws) <> Some k ->
               rooms (cleanup ws st) !! k = rooms st !! k.
Proof.
  unfold cleanup.
  destruct (currentRoom (session_of st ws)) as [k0|]; [|by repeat split].
  destruct (rooms st !! k0) as [r|]; [|by repeat split].
  assert (Hk : forall k, Some k0 <> Some k ->
                 delete k0 (rooms st) !! k = rooms st !! k).
  { intros k Hne. apply lookup_delete_ne. congruence. }
  by destruct (reconnectionToken r) as [tok|]; [destruct (String.eqb tok "")|].
Qed.




(** ** The grace period *)








(** ** When the cleanup timer fires *)

Lemma reachable_room_token st k r :
  reachable Reconnecting st -> rooms st !! k = Some r ->
  exists token, reconnectionToken r = Some token /\ token <> "".
Proof.
  intros Hreach. revert k r.
  induction Hreach as [|st ev Hreach IH Hen]; intros k r' Hk.
  - simpl in Hk. by rewrite lookup_empty in Hk.
  - destruct (rooms_change_lookup _ _ _ _ _ k r'
                (rooms_change_step Reconnecting ev st) Hk)
      as [(r & Hr & Htok & _)|Hnew].
    + rewrite Htok. by eapply IH.
    + destruct ev as [|ws o [data|]| | |]; try discriminate Hnew.
      simpl in Hnew.
      destruct (type_is data "register_pc"); [|discriminate Hnew].
      destruct (reclaim_target data st); [discriminate Hnew|].
      injection Hnew as <- <-. simpl. eexists. split; [reflexivity|].
      apply generateReconnectionToken_nonempty.
Qed.

(** X14.  When a cleanup timer fires and the room of the connection that
    set it is still in the registry, the room and the index entry of its
    token are deleted, and nobody is notified.  Afterwards a
    [register_pc] frame with that token registers a new room, with the
    sender as its [pc], and is answered with a new code and token and
    [isReconnection: false]; a [join_room] frame with the old code is
    answered with the error [Invalid room code]; and a [relay] frame of a
    connection left in the room is answered with the error
    [Not in a room]. *)
Theorem cleanup_expires_room
  (st : world) (id : nat) (t : timer) (k : string) (r : room) :
  reachable Reconnecting st ->
  timers st !! id = Some t ->
  currentRoom (session_of st (owner t)) = Some k ->
  rooms st !! k = Some r ->
  exists token st1,
    reconnectionToken r = Some token
    /\ step Reconnecting (TimerFired id) st = (st1, [])
    /\ st1 = World (delete k (rooms st)) (delete token (reconnectionTokens st))
                   (sessions st) (readyState st) (delete id (timers st))
                   (next_timer st) (clock st)
    /\ (forall o ws data,
          type_is data "register_pc" = true ->
          get data "reconnectionToken" = Some (JStr token) ->
          registers_new_room o ws st1
            (on_message Reconnecting o ws (Some data) st1))
    /\ (forall o ws data supplied,
          type_is data "join_room" = true ->
          get data "roomCode" = Some (JStr supplied) ->
          toUpperCase supplied = k ->
          exists reply,
            on_message Reconnecting o ws (Some data) st1
            = (st1, [Send ws reply])
            /\ get reply "type" = Some (JStr "error")
            /\ get reply "message" = Some (JStr "Invalid room code"))
    /\ (forall o ws data,
          type_is data "relay" = true ->
          currentRoom (session_of st ws) = Some k ->
          exists reply,
            on_message Reconnecting o ws (Some data) st1
            = (st1, [Send ws reply])
            /\ get reply "type" = Some (JStr "error")
            /\ get reply "message" = Some (JStr "Not in a room")).
Proof.
  intros Hreach Htimer Hcur Hroom.
  destruct (reachable_room_token st k r Hreach Hroom) as (token & Htok & Hne).
  exists token. eexists. split; [exact Htok|].
  split.
  { cbn [step]. rewrite Htimer. unfold cleanup.
    change (session_of (with_timers (delete id) st) (owner t))
      with (session_of st (owner t)).
    rewrite Hcur. simpl. rewrite Hroom, Htok.
    apply String.eqb_neq in Hne. rewrite Hne. reflexivity. }
  split; [reflexivity|].
  split_and!.
  - intros o ws data Htype Hfield.
    rewrite (register_pc_new_room o _ ws data Htype);
      [read_new_room|].
    apply reclaim_target_None.
    intros token' requested Hfield' _ Hidx. simpl in Hidx.
    rewrite Hfield in Hfield'. injection Hfield' as <-.
    by rewrite lookup_delete_eq in Hidx.
  - intros o ws data supplied Htype Hcode <-.
    rewrite on_message_join_room by exact Htype.
    unfold join_room. rewrite Hcode. simpl.
    rewrite lookup_delete_eq.
    eexists. split; [reflexivity|]. split; reflexivity.
  - intros o ws data Htype Hcur'.
    rewrite on_message_relay by exact Htype.
    unfold relay.
    change (session_of _ ws) with (session_of st ws). rewrite Hcur'.
    simpl. rewrite lookup_delete_eq.
    eexists. split; [by destruct (String.eqb k "")|]. split; reflexivity.
Qed.

Lemma cleanup_expires_room_witness :
  rooms (step Reconnecting (TimerFired 0) orphaned).1 !! "AAAAAA" = None
  /\ reconnectionTokens (step Reconnecting (TimerFired 0) orphaned).1
       !! "k3j90" = None
  /\ (exists reply r,
        (on_message Reconnecting oracle_B 3
           (Some (frame_reconnect "k3j90" "AAAAAA"))
           (step Reconnecting (TimerFired 0) orphaned).1).2
        = [Send 3 reply]
        /\ get reply "roomCode" = Some (JStr "BBBBBB")
        /\ get reply "isReconnection" = Some (JBool false)
        /\ rooms (on_message Reconnecting oracle_B 3
                    (Some (frame_reconnect "k3j90" "AAAAAA"))
                    (step Reconnecting (TimerFired 0) orphaned).1).1
             !! "BBBBBB"
           = Some r
        /\ pc r = Some 3).
Proof.
  destruct (cleanup_expires_room orphaned 0 (Timer 3600000 1) "AAAAAA"
              (Room (Some 1) (Some 2) (Some "k3j90") (Some 0%Z) (Some 0)))
    as (token & st1 & Htok & Hstep & -> & Hreg & _ & _).
  - apply reachable_run; [apply reachable_paired | vm_compute; reflexivity].
  - vm_compute. reflexivity.
  - vm_compute. reflexivity.
  - vm_compute. reflexivity.
  - injection Htok as <-. rewrite Hstep. cbn [fst].
    split; [apply lookup_delete_eq|].
    split; [apply lookup_delete_eq|].
    destruct (Hreg oracle_B 3 (frame_reconnect "k3j90" "AAAAAA"))
      as (reply & r & Hfx & _ & Hcode & _ & Hflag & Hr & Hpc & _);
      [reflexivity | reflexivity |].
    exists reply, r. split; [exact Hfx|]. split; [exact Hcode|].
    split; [exact Hflag|]. split; [exact Hr | exact Hpc].
Defined.

(** ** Runs in which every connection is bound once *)

Lemma close_if_open_sessions slot0 st :
  sessions (close_if_open slot0 st).1 = sessions st.
Proof.
  unfold close_if_open.
  destruct slot0 as [old|]; [destruct (is_open st old)|]; reflexivity.
Qed.

Lemma on_message_sessions v o ws message st :
  match binding v (Message ws o message) st with
  | Some (_, k) =>
      exists d,
        sessions (on_message v o ws message st).1
        = <[ws := Session (Some k) (Some d)]> (sessions st)
  | None => sessions (on_message v o ws message st).1 = sessions st
  end.
Proof.
  unfold binding, target_room, on_message, protocol_error.
  destruct message as [data|]; [|reflexivity].
  assert (Hrest :
    match
      match
        (if type_is data "register_pc" then
           match v with
           | Legacy => Some (generateRoomCode (random o))
           | Reconnecting =>
               match reclaim_target data st with
               | Some (roomCode, _, _) => Some roomCode
               | None => Some (generateRoomCode (random o))
               end
           end
         else if type_is data "join_room" then
           match get data "roomCode" with
           | Some (JStr supplied) =>
               match rooms st !! toUpperCase supplied with
               | Some _ => Some (toUpperCase supplied)
               | None => None
               end
           | _ => None
           end
         else None)
      with
      | Some k => Some (ws, k)
      | None => None
      end
    with
    | Some (_, k) =>
        exists d,
          sessions
            (if type_is data "register_pc" then
               match v with
               | Legacy => register_pc_legacy o ws st
               | Reconnecting => register_pc o ws data st
               end
             else if type_is data "join_room" then
               match join_room ws data st with
               | Some result => result
               | None => (st, [Send ws (msg_error "Invalid message format")])
               end
             else if type_is data "relay" then relay ws data st
             else (st, [])).1
          = <[ws := Session (Some k) (Some d)]> (sessions st)
    | None =>
        sessions
          (if type_is data "register_pc" then
             match v with
             | Legacy => register_pc_legacy o ws st
             | Reconnecting => register_pc o ws data st
             end
           else if type_is data "join_room" then
             match join_room ws data st with
             | Some result => result
             | None => (st, [Send ws (msg_error "Invalid message format")])
             end
           else if type_is data "relay" then relay ws data st
           else (st, [])).1
        = sessions st
    end).
  { destruct (type_is data "register_pc").
    { destruct v; [by exists Pc|].
      unfold register_pc.
      destruct (reclaim_target data st) as [[[k tok] r]|]; [|by exists Pc].
      pose proof (close_if_open_sessions (pc r)
                    (clearTimeout (cleanupTimeout r) st)) as Hs.
      destruct (close_if_open _ _) as [st2 closed]. simpl in *.
      exists Pc. rewrite Hs. by destruct (cleanupTimeout r). }
    destruct (type_is data "join_room").
    { unfold join_room.
      destruct (get data "roomCode") as [[| | |supplied| |]|];
        try reflexivity.
      destruct (rooms st !! toUpperCase supplied) as [r|]; [|reflexivity].
      pose proof (close_if_open_sessions (mobile r) st) as Hs.
      destruct (close_if_open _ _) as [st1 closed]. simpl in *.
      exists Mobile. by rewrite Hs. }
    destruct (type_is data "relay"); [by rewrite relay_state | reflexivity]. }
  destruct data; try exact Hrest; reflexivity.
Qed.

Lemma step_keeps_currentRoom v ev st s :
  enabled st ev = true ->
  is_Some (currentRoom (session_of st s)) ->
  is_Some (currentRoom (session_of (step v ev st).1 s)).
Proof.
  intros Hen Hsome.
  destruct ev as [ws|ws o message|ws|id|ms].
  - simpl in Hen. destruct (sessions st !! ws) eqn:Hws; [discriminate|].
    unfold session_of in *. simpl.
    destruct (decide (ws = s)) as [<-|Hne].
    + rewrite Hws in Hsome. simpl in Hsome. by destruct Hsome.
    + by rewrite lookup_insert_ne.
  - change (step v (Message ws o message) st)
      with (on_message v o ws message st).
    pose proof (on_message_sessions v o ws message st) as Hs.
    unfold session_of in *.
    destruct (binding v (Message ws o message) st) as [[ws0 k]|].
    + destruct Hs as [d ->].
      destruct (decide (ws = s)) as [<-|Hne];
        [rewrite lookup_insert_eq; simpl; eauto
        | by rewrite lookup_insert_ne].
    + by rewrite Hs.
  - cbn [step].
    destruct (on_close_frame v ws (with_readyState <[ws := CLOSED]> st))
      as (_ & Hs & _). unfold session_of in *. by rewrite Hs.
  - cbn [step]. destruct (timers st !! id) as [t|]; [|exact Hsome].
    destruct (cleanup_frame (owner t) (with_timers (delete id) st))
      as (_ & Hs & _). unfold session_of in *. cbn [fst]. by rewrite Hs.
  - exact Hsome.
Qed.

Lemma referenced_are_bound_step v ev st :
  enabled st ev = true ->
  referenced_are_bound st -> referenced_are_bound (step v ev st).1.
Proof.
  intros Hen Hinv k r' s Hk Hs.
  destruct (refs_from_step v ev st k r' s Hk Hs) as [(r & Hr & Hrs)|Hbind].
  - apply step_keeps_currentRoom; [exact Hen|]. by eapply Hinv.
  - destruct ev as [|ws o message| | |]; try discriminate Hbind.
    change (step v (Message ws o message) st)
      with (on_message v o ws message st).
    pose proof (on_message_sessions v o ws message st) as Hsess.
    rewrite Hbind in Hsess. destruct Hsess as [d Hsess].
    assert (ws = s) as ->.
    { simpl in Hbind. destruct (target_room _ _ _ _); congruence. }
    unfold session_of. rewrite Hsess, lookup_insert_eq. simpl. eauto.
Qed.

Lemma exclusive_step_unbound v ev st :
  exclusive st -> referenced_are_bound st ->
  match binding v ev st with
  | Some (ws, _) =>
      match currentRoom (session_of st ws) with
      | None => true
      | Some _ => false
      end
  | None => true
  end = true ->
  exclusive (step v ev st).1.
Proof.
  intros Hex Hinv Honce k1 k2 r1 r2 s Hk1 Hk2 Hs1 Hs2.
  pose proof (refs_from_step v ev st) as Hfrom.
  assert (Hfresh : forall k r, binding v ev st = Some (s, k2) \/
                               binding v ev st = Some (s, k1) ->
                     rooms st !! k = Some r -> refs r s -> False).
  { intros k r Hb Hr Hrs.
    destruct (Hinv k r s Hr Hrs) as [k' Hk'].
    destruct Hb as [Hb|Hb]; rewrite Hb, Hk' in Honce; discriminate. }
  destruct (Hfrom k1 r1 s Hk1 Hs1) as [(r1' & Hr1 & Hs1')|Hb1];
    destruct (Hfrom k2 r2 s Hk2 Hs2) as [(r2' & Hr2 & Hs2')|Hb2].
  - by eapply Hex.
  - destruct (Hfresh k1 r1' (or_introl Hb2) Hr1 Hs1').
  - destruct (Hfresh k2 r2' (or_intror Hb1) Hr2 Hs2').
  - congruence.
Qed.

(** X15.  In every run from the initial state in which each frame that
    binds its sender to a room comes from a connection that was not bound
    before, no socket is referenced by two rooms at the end. *)
Theorem exclusive_if_bound_once (v : server) (evs : list event) :
  all_enabled v evs init = true ->
  bound_once v evs init = true ->
  exclusive (run v evs init).1.
Proof.
  assert (Hgen : forall st,
            exclusive st -> referenced_are_bound st ->
            all_enabled v evs st = true -> bound_once v evs st = true ->
            exclusive (run v evs st).1).
  { induction evs as [|ev rest IH]; intros st Hex Hinv Hen Honce;
      simpl in *; [exact Hex|].
    apply andb_prop in Hen as [Hev Hrest].
    apply andb_prop in Honce as [Hfirst Hlater].
    pose proof (exclusive_step_unbound v ev st Hex Hinv Hfirst) as Hex1.
    pose proof (referenced_are_bound_step v ev st Hev Hinv) as Hinv1.
    specialize (IH _ Hex1 Hinv1 Hrest Hlater).
    destruct (step v ev st) as [st1 fx1]. simpl in *.
    by destruct (run v rest st1) as [st2 fx2]. }
  apply Hgen.
  - intros k1 k2 r1 r2 s Hk1. simpl in Hk1. by rewrite lookup_empty in Hk1.
  - intros k r s Hk. simpl in Hk. by rewrite lookup_empty in Hk.
Qed.

Lemma exclusive_if_bound_once_witness :
  exclusive (run Reconnecting scenario_trace init).1.
Proof.
  apply (exclusive_if_bound_once Reconnecting scenario_trace).
  - vm_compute. reflexivity.
  - vm_compute. reflexivity.
Defined.

(** ** Notifications of a join, and frames of unknown type *)




(** X10.  A frame that parses to a value other than [null] and whose
    [type] is missing, is not a string, or is none of [register_pc],
    [join_room] and [relay] is passed over: nothing is sent, not even an
    error, and the state is unchanged. *)
Theorem frame_of_unknown_type_ignored
  (v : server) (o : oracle) (st : world) (ws : socket) (data : json) :
  data <> JNull ->
  (forall t, get data "type" = Some (JStr t) ->
             t <> "register_pc" /\ t <> "join_room" /\ t <> "relay") ->
  on_message v o ws (Some data) st = (st, []).
Proof.
  intros Hnull Htype.
  assert (Hnot : forall t,
            t = "register_pc" \/ t = "join_room" \/ t = "relay" ->
            type_is data t = false).
  { intros t Ht. unfold type_is.
    destruct (get data "type") as [[| | |s| |]|]; try reflexivity.
    apply String.eqb_neq. intros ->.
    destruct (Htype t eq_refl) as (H1 & H2 & H3).
    destruct Ht as [-> | [-> | ->]]; congruence. }
  unfold on_message.
  destruct data; try congruence;
    by rewrite !Hnot by tauto.
Qed.

Lemma frame_of_unknown_type_ignored_witness :
  on_message Reconnecting oracle_A 3
    (Some (JObj [("roomCode", JStr "AAAAAA")])) (paired Reconnecting)
  = (paired Reconnecting, [])
  /\ on_message Legacy oracle_A 3 (Some (JNum (Finite 42))) (paired Legacy)
     = (paired Legacy, []).
Proof.
  split.
  - apply frame_of_unknown_type_ignored; [discriminate|].
    intros t Ht. discriminate Ht.
  - apply frame_of_unknown_type_ignored; [discriminate|].
    intros t Ht. discriminate Ht.
Defined.

(** ** The client and the broker together *)


(** X16.  The handshake of [RelayClient] with either broker.  When the
    client's socket opens, the client sends [register_pc] without a
    token; the broker answers it with [registered] for a new room whose
    [pc] is that connection (with [isReconnection: false] in the
    reconnection-aware server); and on that answer the client stores the
    room code, reports itself connected and resolves the promise of
    [connect] with the code. *)
Theorem client_registration_handshake
  (v : server) (o : oracle) (st : world) (sock : socket)
  (c : RelayClient.state) (n : nat) :
  RelayClient.ws c = Some n ->
  RelayClient.promises c !! n = Some RelayClient.Pending ->
  exists c1 st' reply c2 r,
    RelayClient.step (RelayClient.SocketOpen n) c
    = Some (c1, [RelayClient.Transmit n RelayClient.frame_register_pc])
    /\ on_message v o sock (Some RelayClient.frame_register_pc) st
       = (st', [Send sock reply])
    /\ RelayClient.step (RelayClient.SocketMessage n (Some reply)) c1
       = Some (c2, [])
    /\ RelayClient.getRoomCode c2
       = Some (JStr (generateRoomCode (random o)))
    /\ RelayClient.isRelayConnected c2 = true
    /\ RelayClient.promises c2 !! n
       = Some (RelayClient.Resolved
                 (Some (JStr (generateRoomCode (random o)))))
    /\ rooms st' !! generateRoomCode (random o) = Some r
    /\ pc r = Some sock /\ mobile r = None
    /\ get reply "isReconnection"
       = match v with
         | Legacy => None
         | Reconnecting => Some (JBool false)
         end.
Proof.
  intros Hws Hpending.
  assert (Hopen :
    RelayClient.step (RelayClient.SocketOpen n) c
    = Some (RelayClient.set_sockets <[n := RelayClient.Open]> c,
            [RelayClient.Transmit n RelayClient.frame_register_pc])).
  { simpl. unfold RelayClient.on_open. simpl.
    by rewrite Hws, lookup_insert_eq. }
  rewrite Hopen.
  rewrite on_message_register_pc by reflexivity.
  destruct v.
  - do 5 eexists. split; [reflexivity|]. split; [reflexivity|].
    simpl. unfold RelayClient.settle. simpl. rewrite Hpending.
    split; [reflexivity|]. simpl. rewrite !lookup_insert_eq.
    by repeat split.
  - unfold register_pc.
    assert (Hnone : reclaim_target RelayClient.frame_register_pc st = None)
      by reflexivity.
    rewrite Hnone.
    do 5 eexists. split; [reflexivity|]. split; [reflexivity|].
    simpl. unfold RelayClient.settle. simpl. rewrite Hpending.
    split; [reflexivity|]. simpl. rewrite !lookup_insert_eq.
    by repeat split.
Qed.

Lemma client_registration_handshake_witness :
  exists c1 st' reply c2,
    RelayClient.step (RelayClient.SocketOpen 0) client_connecting
    = Some (c1, [RelayClient.Transmit 0 RelayClient.frame_register_pc])
    /\ on_message Reconnecting oracle_B 3
         (Some RelayClient.frame_register_pc) (paired Reconnecting)
       = (st', [Send 3 reply])
    /\ RelayClient.step (RelayClient.SocketMessage 0 (Some reply)) c1
       = Some (c2, [])
    /\ RelayClient.getRoomCode c2 = Some (JStr "BBBBBB")
    /\ RelayClient.isRelayConnected c2 = true.
Proof.
  destruct (client_registration_handshake Reconnecting oracle_B
              (paired Reconnecting) 3 client_connecting 0)
    as (c1 & st' & reply & c2 & r & H1 & H2 & H3 & H4 & H5 & _).
  - reflexivity.
  - vm_compute. reflexivity.
  - by exists c1, st', reply, c2.
Defined.



(** X18.  From mobile to PC.  A [relay] frame of the secondary of a live
    room whose PC is open makes the broker send one message to the PC.
    When the client reads it, every callback registered with [onMessage]
    is called once, in the order of registration, with the payload of the
    mobile's frame as [JSON.stringify] wrote it (the payload itself when
    none of its numbers is an infinity, [null] in place of an infinity
    otherwise), and the client's state is unchanged. *)
Theorem mobile_payload_reaches_handlers
  (v : server) (o : oracle) (st : world) (sock m : socket) (k : string)
  (r : room) (c : RelayClient.state) (n : nat) (data : json) :
  reachable v st ->
  type_is data "relay" = true ->
  sessions st !! m = Some (Session (Some k) (Some Mobile)) ->
  rooms st !! k = Some r ->
  pc r = Some sock ->
  is_open st sock = true ->
  exists delivered received,
    on_message v o m (Some data) st = (st, [Send sock delivered])
    /\ RelayClient.step
         (RelayClient.SocketMessage n (Some (serialised delivered))) c
       = Some (c, map (fun handler => RelayClient.Invoke handler received)
                    (RelayClient.messageHandlers c))
    /\ received = option_map serialised (get data "payload")
    /\ (forall p, get data "payload" = Some p -> finite p = true ->
                  received = Some p).
Proof.
  intros Hreach Htype Hsess Hroom Hpc Hopen.
  exists (msg_data (get data "payload")),
         (option_map serialised (get data "payload")).
  split_and!.
  - assert (Hk : k <> "").
    { exact (is_code_nonempty _
               (wf_rooms st (reachable_well_formed _ _ Hreach) _ _ Hroom)). }
    rewrite on_message_relay by exact Htype.
    unfold relay, session_of. rewrite Hsess. simpl.
    apply String.eqb_neq in Hk. rewrite Hk, Hroom.
    unfold send_if_open. cbn [fst snd]. by rewrite Hpc, Hopen.
  - cbn [RelayClient.step]. f_equal.
    unfold RelayClient.on_message.
    destruct (get data "payload") as [p|]; simpl; reflexivity.
  - reflexivity.
  - intros p -> Hfin. simpl. by rewrite serialised_finite.
Qed.

Lemma mobile_payload_reaches_handlers_witness :
  (exists delivered,
     on_message Reconnecting oracle_A 2 (Some (frame_relay (JStr "Y")))
       (paired Reconnecting)
     = (paired Reconnecting, [Send 1 delivered])
     /\ RelayClient.step
          (RelayClient.SocketMessage 0 (Some (serialised delivered)))
          client_registered
        = Some (client_registered,
                [RelayClient.Invoke 5 (Some (JStr "Y"));
                 RelayClient.Invoke 7 (Some (JStr "Y"))]))
  /\ (exists delivered,
        on_message Reconnecting oracle_A 2
          (Some (frame_relay
                   (JNum (JSON_parse_number (inject_Z (10 ^ 400))))))
          (paired Reconnecting)
        = (paired Reconnecting, [Send 1 delivered])
        /\ RelayClient.step
             (RelayClient.SocketMessage 0 (Some (serialised delivered)))
             client_registered
           = Some (client_registered,
                   [RelayClient.Invoke 5 (Some JNull);
                    RelayClient.Invoke 7 (Some JNull)])).
Proof.
  split.
  - destruct (mobile_payload_reaches_handlers Reconnecting oracle_A
                (paired Reconnecting) 1 2 "AAAAAA"
                (Room (Some 1) (Some 2) (Some "k3j90") (Some 0%Z) None)
                client_registered 0 (frame_relay (JStr "Y")))
      as (delivered & received & Hrun & Hstep & -> & _).
    + apply reachable_paired.
    + reflexivity.
    + vm_compute. reflexivity.
    + vm_compute. reflexivity.
    + reflexivity.
    + vm_compute. reflexivity.
    + exists delivered. split; [exact Hrun | exact Hstep].
  - destruct (mobile_payload_reaches_handlers Reconnecting oracle_A
                (paired Reconnecting) 1 2 "AAAAAA"
                (Room (Some 1) (Some 2) (Some "k3j90") (Some 0%Z) None)
                client_registered 0
                (frame_relay (JNum (JSON_parse_number (inject_Z (10 ^ 400))))))
      as (delivered & received & Hrun & Hstep & -> & _).
    + apply reachable_paired.
    + reflexivity.
    + vm_compute. reflexivity.
    + vm_compute. reflexivity.
    + reflexivity.
    + vm_compute. reflexivity.
    + exists delivered. split; [exact Hrun | exact Hstep].
Defined.

(** ** The client after a close *)

Lemma client_close_schedules_reconnect_aux
  (c : RelayClient.state) (n : nat) :
  exists c',
    RelayClient.step (RelayClient.SocketClose n) c = Some (c', [])
    /\ RelayClient.isRelayConnected c' = false
    /\ RelayClient.getRoomCode c' = Some JNull
    /\ RelayClient.reconnectInterval c' = Some (RelayClient.next_timer c)
    /\ RelayClient.timers c' !! RelayClient.next_timer c
       = Some ((RelayClient.now c + 5000)%Z, RelayClient.Reconnect)
    /\ (forall data, RelayClient.sendToMobile data c' = (false, []))
    /\ (RelayClient.url_valid c = true ->
        exists c'',
          RelayClient.step
            (RelayClient.TimerFired (RelayClient.next_timer c)) c'
          = Some (c'', [])
          /\ RelayClient.ws c'' = Some (RelayClient.next_socket c)
          /\ RelayClient.sockets c'' !! RelayClient.next_socket c
             = Some RelayClient.Connecting
          /\ RelayClient.promises c'' !! RelayClient.next_socket c
             = Some RelayClient.Pending).
Proof.
  eexists. split; [reflexivity|].
  split_and!; try reflexivity.
  - simpl. apply lookup_insert_eq.
  - intros Hvalid. simpl. rewrite lookup_insert_eq.
    unfold RelayClient.connect. simpl. rewrite Hvalid.
    eexists. split; [reflexivity|]. simpl.
    by rewrite !lookup_insert_eq.
Qed.

(** X19.  When a socket of the client closes, the client reports itself
    disconnected with no room code, [sendToMobile] returns [false] and
    sends nothing, and a timer due 5000 ms later is pending; when that
    timer fires, [connect] makes a new socket and a new pending promise
    (given a URL that [WebSocket] accepts). *)
Theorem client_close_schedules_reconnect
  (c : RelayClient.state) (n : nat) :
  exists c',
    RelayClient.step (RelayClient.SocketClose n) c = Some (c', [])
    /\ RelayClient.isRelayConnected c' = false
    /\ RelayClient.getRoomCode c' = Some JNull
    /\ RelayClient.reconnectInterval c' = Some (RelayClient.next_timer c)
    /\ RelayClient.timers c' !! RelayClient.next_timer c
       = Some ((RelayClient.now c + 5000)%Z, RelayClient.Reconnect)
    /\ (forall data, RelayClient.sendToMobile data c' = (false, []))
    /\ (RelayClient.url_valid c = true ->
        exists c'',
          RelayClient.step
            (RelayClient.TimerFired (RelayClient.next_timer c)) c'
          = Some (c'', [])
          /\ RelayClient.ws c'' = Some (RelayClient.next_socket c)
          /\ RelayClient.sockets c'' !! RelayClient.next_socket c
             = Some RelayClient.Connecting
          /\ RelayClient.promises c'' !! RelayClient.next_socket c
             = Some RelayClient.Pending).
Proof. apply client_close_schedules_reconnect_aux. Qed.

Lemma client_close_schedules_reconnect_witness :
  exists c' c'',
    RelayClient.step (RelayClient.SocketClose 0) client_registered
    = Some (c', [])
    /\ RelayClient.sendToMobile (Some (JStr "X")) c' = (false, [])
    /\ RelayClient.step (RelayClient.TimerFired 1) c' = Some (c'', [])
    /\ RelayClient.ws c'' = Some 1.
Proof.
  destruct (client_close_schedules_reconnect client_registered 0)
    as (c' & Hstep & _ & _ & _ & _ & Hsend & Hfire).
  destruct (Hfire eq_refl) as (c'' & Hfired & Hws & _).
  exists c', c''. split; [exact Hstep|].
  split; [apply Hsend|]. split; [exact Hfired | exact Hws].
Defined.

(** X20.  [disconnect()] closes the client's socket, forgets it, clears
    the pending reconnection timer and leaves the client disconnected
    with no room code.  The close event of that socket then schedules a
    reconnection all the same, and 5000 ms later [connect] makes a new
    socket. *)
Theorem client_disconnect_does_not_stop_reconnect
  (c : RelayClient.state) (n : nat) :
  RelayClient.ws c = Some n ->
  RelayClient.url_valid c = true ->
  exists c1 c2 c3,
    RelayClient.step RelayClient.CallDisconnect c
    = Some (c1, [RelayClient.CloseSocket n])
    /\ RelayClient.ws c1 = None
    /\ RelayClient.isRelayConnected c1 = false
    /\ RelayClient.getRoomCode c1 = Some JNull
    /\ (forall id, RelayClient.reconnectInterval c = Some id ->
                   RelayClient.timers c1 !! id = None)
    /\ (forall data, RelayClient.sendToMobile data c1 = (false, []))
    /\ RelayClient.step (RelayClient.SocketClose n) c1 = Some (c2, [])
    /\ RelayClient.timers c2 !! RelayClient.next_timer c
       = Some ((RelayClient.now c + 5000)%Z, RelayClient.Reconnect)
    /\ RelayClient.step
         (RelayClient.TimerFired (RelayClient.next_timer c)) c2
       = Some (c3, [])
    /\ RelayClient.ws c3 = Some (RelayClient.next_socket c)
    /\ RelayClient.sockets c3 !! RelayClient.next_socket c
       = Some RelayClient.Connecting.
Proof.
  intros Hws Hvalid.
  assert (Hdisc : exists c1,
    RelayClient.disconnect c = (c1, [RelayClient.CloseSocket n])
    /\ RelayClient.ws c1 = None
    /\ RelayClient.isConnected c1 = false
    /\ RelayClient.roomCode c1 = Some JNull
    /\ RelayClient.url_valid c1 = true
    /\ RelayClient.next_timer c1 = RelayClient.next_timer c
    /\ RelayClient.next_socket c1 = RelayClient.next_socket c
    /\ RelayClient.now c1 = RelayClient.now c
    /\ (forall id, RelayClient.reconnectInterval c = Some id ->
                   RelayClient.timers c1 !! id = None)).
  { unfold RelayClient.disconnect, RelayClient.close_socket.
    destruct (RelayClient.reconnectInterval c) as [id|] eqn:Hint;
      simpl; rewrite Hws;
      destruct (RelayClient.sockets c !! n) as [[| | |]|];
      eexists; (split; [reflexivity|]); simpl;
      repeat split; try assumption;
      try (intros id' [= <-]; apply lookup_delete_eq);
      try discriminate. }
  destruct Hdisc as (c1 & Hstep & Hws1 & Hconn1 & Hcode1 & Hvalid1 & Hnt & Hns
                     & Hnow & Hcleared).
  destruct (client_close_schedules_reconnect_aux c1 n)
    as (c2 & Hclose & _ & _ & _ & Htimer & _ & Hfire).
  destruct (Hfire Hvalid1) as (c3 & Hfired & Hws3 & Hsock3 & _).
  exists c1, c2, c3.
  rewrite Hnt, Hns, Hnow in *.
  split_and!; try assumption.
  - simpl. by rewrite Hstep.
  - intros data. unfold RelayClient.sendToMobile. by rewrite Hconn1.
Qed.

Lemma client_disconnect_does_not_stop_reconnect_witness :
  exists c1 c2 c3,
    RelayClient.step RelayClient.CallDisconnect client_registered
    = Some (c1, [RelayClient.CloseSocket 0])
    /\ RelayClient.step (RelayClient.SocketClose 0) c1 = Some (c2, [])
    /\ RelayClient.step (RelayClient.TimerFired 1) c2 = Some (c3, [])
    /\ RelayClient.ws c3 = Some 1.
Proof.
  destruct (client_disconnect_does_not_stop_reconnect client_registered 0)
    as (c1 & c2 & c3 & H1 & _ & _ & _ & _ & _ & H2 & _ & H3 & H4 & _).
  - reflexivity.
  - reflexivity.
  - by exists c1, c2, c3.
Defined.
